(** * Siigo invoicing client: a shallow embedding and its properties

    The development follows the two Python modules of the repository:
    [siigo_client.py] (class [SiigoClient]: bearer-token cache, request
    dispatcher, typed operations) and [parking_invoice.py] (the global
    [SIIGO_CONFIG] dictionary, [emit_electronic_invoice], [_validar_config],
    [configurar_siigo]).

    Python objects are mutated in place and exceptions do not roll mutations
    back, so effectful code lives in a state-and-exception monad whose state
    survives a raise.  The outside world (the wall clock read by
    [datetime.now()] and the remote HTTP service reached through [requests])
    is an explicit component of that state. *)

From Stdlib Require Import ZArith String Ascii List Bool Lia DecimalString.
Import ListNotations.
Local Open Scope string_scope.
Local Open Scope Z_scope.
Set Warnings "-register-all".

(* ===================================================================== *)
(** ** Python values *)
(* ===================================================================== *)

(** The values that travel through the client: what [json=] bodies, query
    dictionaries and [response.json()] results are made of.  JSON numbers are
    integers here.  A [str] is a Rocq [string], i.e. a byte string: the model
    is exact on ASCII text. *)
Inductive pyval : Type :=
| PNone
| PBool (b : bool)
| PInt (z : Z)
| PStr (s : string)
| PList (l : list pyval)
| PDict (d : list (string * pyval)).

(** A Python [dict] with string keys, in insertion order. *)
Definition dict := list (string * pyval).

Module Py.

(** [bool(v)]: [None], [False], [0], [""], [[]] and [{}] are falsy. *)
Definition truthy (v : pyval) : bool :=
  match v with
  | PNone => false
  | PBool b => b
  | PInt z => negb (z =? 0)
  | PStr s => negb (s =? "")%string
  | PList l => match l with [] => false | _ => true end
  | PDict d => match d with [] => false | _ => true end
  end.

(** [d.get(k)] without the [None] default. *)
Fixpoint lookup (d : dict) (k : string) : option pyval :=
  match d with
  | [] => None
  | (k', v) :: r => if (k' =? k)%string then Some v else lookup r k
  end.

(** [d.get(k)]. *)
Definition get (d : dict) (k : string) : pyval :=
  match lookup d k with Some v => v | None => PNone end.

(** [d[k] = v]: an existing key keeps its place, a new key goes last. *)
Fixpoint set (d : dict) (k : string) (v : pyval) : dict :=
  match d with
  | [] => [(k, v)]
  | (k', v') :: r =>
      if (k' =? k)%string then (k', v) :: r else (k', v') :: set r k v
  end.

(** [str(n)] for an [int]. *)
Definition str_int (z : Z) : string := NilZero.string_of_int (Z.to_int z).

Definition hex_digit (n : nat) : ascii :=
  ascii_of_nat (if Nat.ltb n 10 then 48 + n else 87 + n).

Definition occurs (c : ascii) (s : string) : bool :=
  existsb (Ascii.eqb c) (list_ascii_of_string s).

(** One character of [repr(s)], inside the quote character [q]. *)
Definition repr_char (q c : ascii) : string :=
  let n := nat_of_ascii c in
  if Ascii.eqb c "\" then "\\"
  else if Ascii.eqb c q then String "\" (String q "")
  else if Nat.eqb n 10 then "\n"
  else if Nat.eqb n 13 then "\r"
  else if Nat.eqb n 9 then "\t"
  else if Nat.ltb n 32 || Nat.eqb n 127
       then String "\" (String "x"
              (String (hex_digit (Nat.div n 16))
                 (String (hex_digit (Nat.modulo n 16)) "")))
  else String c "".

(** [repr(s)] for a [str]: single quotes, unless the text has a single quote
    and no double quote. *)
Definition repr_str (s : string) : string :=
  let q : ascii :=
    if occurs "'" s && negb (occurs "034" s) then "034"%char else "'"%char in
  String q (String.concat "" (map (repr_char q) (list_ascii_of_string s))
            ++ String q "").

(** [repr(v)]. *)
Fixpoint repr (v : pyval) : string :=
  match v with
  | PNone => "None"
  | PBool true => "True"
  | PBool false => "False"
  | PInt z => str_int z
  | PStr s => repr_str s
  | PList l =>
      "[" ++ (fix items (l : list pyval) : string :=
                match l with
                | [] => ""
                | x :: r =>
                    repr x ++ match r with [] => "" | _ => ", " ++ items r end
                end) l ++ "]"
  | PDict d =>
      "{" ++ (fix items (d : list (string * pyval)) : string :=
                match d with
                | [] => ""
                | (k, x) :: r =>
                    repr_str k ++ ": " ++ repr x
                    ++ match r with [] => "" | _ => ", " ++ items r end
                end) d ++ "}"
  end.

(** [str(v)], what an f-string field [{v}] expands to. *)
Definition str (v : pyval) : string :=
  match v with
  | PStr s => s
  | _ => repr v
  end.

(** [str.isspace] on ASCII: TAB, LF, VT, FF, CR, FS, GS, RS, US and space. *)
Definition isspace (c : ascii) : bool :=
  let n := nat_of_ascii c in
  (Nat.leb 9 n && Nat.leb n 13) || (Nat.leb 28 n && Nat.leb n 32).

Fixpoint lstrip (s : string) : string :=
  match s with
  | EmptyString => EmptyString
  | String c r => if isspace c then lstrip r else s
  end.

Fixpoint rstrip (s : string) : string :=
  match s with
  | EmptyString => EmptyString
  | String c r =>
      match rstrip r with
      | EmptyString => if isspace c then EmptyString else String c EmptyString
      | r' => String c r'
      end
  end.

(** [s.strip()]. *)
Definition strip (s : string) : string := rstrip (lstrip s).

Definition upper_char (c : ascii) : ascii :=
  let n := nat_of_ascii c in
  if Nat.leb 97 n && Nat.leb n 122 then ascii_of_nat (n - 32) else c.

(** [s.upper()] on ASCII letters; other bytes are kept. *)
Fixpoint upper (s : string) : string :=
  match s with
  | EmptyString => EmptyString
  | String c r => String (upper_char c) (upper r)
  end.

(** [x or ""] for an argument that may be [None]. *)
Definition or_empty (x : option string) : string :=
  match x with Some s => s | None => "" end.

End Py.

(* ===================================================================== *)
(** ** [datetime] *)
(* ===================================================================== *)

Module Datetime.

(** A naive [datetime], as the number of microseconds since
    0001-01-01T00:00:00: its arithmetic with [timedelta] and its comparisons
    are those of the integers.  Python's range check (years 1 to 9999) is not
    modelled. *)
Definition datetime := Z.

Definition timedelta (hours : Z) : Z := hours * 3600 * 1000000.

Definition us_per_day : Z := 86400 * 1000000.

(** [d.toordinal()]: day 1 is 0001-01-01. *)
Definition toordinal (t : datetime) : Z := t / us_per_day + 1.

Definition days_before_month (m : Z) : Z :=
  nth (Z.to_nat m) [0; 0; 31; 59; 90; 120; 151; 181; 212; 243; 273; 304; 334] 0.

Definition days_in_month (m : Z) : Z :=
  nth (Z.to_nat m) [0; 31; 28; 31; 30; 31; 30; 31; 31; 30; 31; 30; 31] 0.

(** The proleptic Gregorian date of an ordinal, by the algorithm of the
    [datetime] module ([_ord2ymd]). *)
Definition ord2ymd (ordinal : Z) : Z * Z * Z :=
  let n := ordinal - 1 in
  let n400 := n / 146097 in
  let n := n mod 146097 in
  let n100 := n / 36524 in
  let n := n mod 36524 in
  let n4 := n / 1461 in
  let n := n mod 1461 in
  let n1 := n / 365 in
  let n := n mod 365 in
  let year := n400 * 400 + 1 + n100 * 100 + n4 * 4 + n1 in
  if (n1 =? 4) || (n100 =? 4) then (year - 1, 12, 31)
  else
    let leapyear := (n1 =? 3) && (negb (n4 =? 24) || (n100 =? 3)) in
    let month := Z.shiftr (n + 50) 5 in
    let preceding :=
      days_before_month month
      + (if (2 <? month) && leapyear then 1 else 0) in
    if n <? preceding then
      let month' := month - 1 in
      let preceding' :=
        preceding
        - (days_in_month month'
           + (if (month' =? 2) && leapyear then 1 else 0)) in
      (year, month', n - preceding' + 1)
    else (year, month, n - preceding + 1).

Definition digit (z : Z) : ascii := ascii_of_nat (48 + Z.to_nat (z mod 10)).

Definition digits2 (z : Z) : string :=
  String (digit (z / 10)) (String (digit z) "").

Definition digits4 (z : Z) : string :=
  String (digit (z / 1000)) (String (digit (z / 100)) (digits2 z)).

(** [t.strftime("%Y-%m-%d")], with the year on four digits. *)
Definition strftime_Ymd (t : datetime) : string :=
  let '(y, m, d) := ord2ymd (toordinal t) in
  digits4 y ++ "-" ++ digits2 m ++ "-" ++ digits2 d.

End Datetime.

(* ===================================================================== *)
(** ** [requests], exceptions and the world *)
(* ===================================================================== *)

(** What [response.json()] does: the decoded body, or the decoder's
    complaint. *)
Inductive json_result : Type :=
| JsonOk (v : pyval)
| JsonError (msg : string).

(** A [requests.Response].  [text] also stands for [content], the same
    bytes. *)
Record response : Type := mkResponse {
  status_code : Z;
  text : string;
  json_body : json_result
}.

(** One outgoing HTTP call: the arguments of [requests.request]. *)
Record request : Type := mkRequest {
  method : string;
  url : string;
  headers : list (string * string);
  json : option pyval;
  params : option dict
}.

(** The exceptions that reach the code.  [HTTPError] is the subclass of
    [requests.exceptions.RequestException] raised by [raise_for_status];
    [RequestException] stands for every other member of that family
    (connection failure, timeout, an undecodable JSON body), holding its
    [str(e)]. *)
Inductive exn : Type :=
| HTTPError (r : response)
| RequestException (msg : string)
| AttributeError (msg : string)
| KeyError (key : string)
| TypeError (msg : string)
| ValueError (msg : string)
| SiigoAuthError (msg : string)
| SiigoAPIError (msg : string) (status : option Z) (body : option pyval).

(** What the network does with a call: a response comes back, or none
    does. *)
Inductive reply : Type :=
| Responded (r : response)
| NoResponse (msg : string).

(** The world outside the process.  [clock] lists the successive readings of
    [datetime.now()] and [ticks] counts the readings made so far; [remote]
    answers a call given the calls made before it; [sent] records every call
    made, oldest first. *)
Record World : Type := mkWorld {
  clock : nat -> Z;
  ticks : nat;
  remote : list request -> request -> reply;
  sent : list request
}.

(* ===================================================================== *)
(** ** State and exceptions *)
(* ===================================================================== *)

Inductive result (A : Type) : Type :=
| Ok (a : A)
| Raise (e : exn).
Arguments Ok {A} a.
Arguments Raise {A} e.

(** A computation over a mutable state [S]: the state reached is returned
    also when an exception is raised. *)
Definition M (S A : Type) : Type := S -> result A * S.

Definition ret {S A : Type} (a : A) : M S A := fun s => (Ok a, s).

Definition raise {S A : Type} (e : exn) : M S A := fun s => (Raise e, s).

Definition bind {S A B : Type} (m : M S A) (k : A -> M S B) : M S B :=
  fun s =>
    match m s with
    | (Ok a, s') => k a s'
    | (Raise e, s') => (Raise e, s')
    end.

(** [try: m  except ...: h e]. *)
Definition try_except {S A : Type} (m : M S A) (h : exn -> M S A) : M S A :=
  fun s =>
    match m s with
    | (Ok a, s') => (Ok a, s')
    | (Raise e, s') => h e s'
    end.

Declare Scope py_scope.
Delimit Scope py_scope with py.
Notation "x <- m ;; k" := (bind m (fun x => k))
  (at level 100, m at next level, right associativity) : py_scope.
Notation "m ;; k" := (bind m (fun _ => k))
  (at level 100, right associativity) : py_scope.
Local Open Scope py_scope.

Module Requests.

(** The world after one more reading of the clock. *)
Definition tick (w : World) : World :=
  mkWorld (clock w) (S (ticks w)) (remote w) (sent w).

(** The world after one more call. *)
Definition logged (w : World) (req : request) : World :=
  mkWorld (clock w) (ticks w) (remote w) (sent w ++ [req]).

(** [datetime.now()]: the next reading of the clock. *)
Definition datetime_now : M World Z :=
  fun w => (Ok (clock w (ticks w)), tick w).

(** [requests.request(...)]: the call is recorded, and either a response
    comes back or a [RequestException] is raised. *)
Definition send (req : request) : M World response :=
  fun w =>
    let w' := logged w req in
    match remote w (sent w) req with
    | Responded r => (Ok r, w')
    | NoResponse msg => (Raise (RequestException msg), w')
    end.

(** [400 <= status_code < 600]. *)
Definition is_error_status (status : Z) : bool :=
  (400 <=? status) && (status <? 600).

(** [response.raise_for_status()]. *)
Definition raise_for_status {S : Type} (r : response) : M S unit :=
  if is_error_status (status_code r) then raise (HTTPError r) else ret tt.

(** [response.json()]. *)
Definition response_json {S : Type} (r : response) : M S pyval :=
  match json_body r with
  | JsonOk v => ret v
  | JsonError msg => raise (RequestException msg)
  end.

End Requests.

(** [v.get(k)] on an arbitrary value: only a [dict] has the method. *)
Definition py_get {S : Type} (v : pyval) (k : string) : M S pyval :=
  match v with
  | PDict d => ret (Py.get d k)
  | _ => raise (AttributeError "object has no attribute 'get'")
  end.

(** [v[k]] with a string key: a [dict] answers or raises [KeyError], any
    other value raises [TypeError]. *)
Definition py_getitem {S : Type} (v : pyval) (k : string) : M S pyval :=
  match v with
  | PDict d =>
      match Py.lookup d k with
      | Some x => ret x
      | None => raise (KeyError k)
      end
  | _ => raise (TypeError "object is not subscriptable by a str key")
  end.

(* ===================================================================== *)
(** ** [siigo_client.py] *)
(* ===================================================================== *)

(** The instance attributes of a [SiigoClient]. *)
Record SiigoClient : Type := mkClient {
  username : string;
  access_key : string;
  application_name : string;
  _access_token : pyval;
  _token_expiry : option Z
}.

(** What a method of the client runs on: the instance and the world. *)
Record St : Type := mkSt {
  self : SiigoClient;
  world : World
}.

Module Client.

Definition BASE_URL : string := "https://api.siigo.com".
Definition AUTH_ENDPOINT : string := "/auth".
Definition INVOICES_ENDPOINT : string := "/v1/invoices".

(** [SiigoClient.__init__]. *)
Definition __init__ (username access_key application_name : string)
  : SiigoClient :=
  mkClient username access_key application_name PNone None.

(** A computation on the world alone, run from a method. *)
Definition lift {A : Type} (m : M World A) : M St A :=
  fun st => let '(r, w) := m (world st) in (r, mkSt (self st) w).

Definition get_self : M St SiigoClient := fun st => (Ok (self st), st).

(** [self._access_token = v]. *)
Definition set_access_token (v : pyval) : M St unit :=
  fun st =>
    let c := self st in
    (Ok tt,
     mkSt (mkClient (username c) (access_key c) (application_name c)
             v (_token_expiry c))
          (world st)).

(** [self._token_expiry = t]. *)
Definition set_token_expiry (t : Z) : M St unit :=
  fun st =>
    let c := self st in
    (Ok tt,
     mkSt (mkClient (username c) (access_key c) (application_name c)
             (_access_token c) (Some t))
          (world st)).

Definition _needs_token_refresh : M St bool :=
  c <- get_self ;;
  if negb (Py.truthy (_access_token c)) then ret true
  else match _token_expiry c with
       | None => ret true
       | Some expiry =>
           now <- lift Requests.datetime_now ;;
           ret (expiry - Datetime.timedelta 1 <=? now)
       end.

Definition auth_request (c : SiigoClient) : request :=
  mkRequest "POST" (BASE_URL ++ AUTH_ENDPOINT)
    [("Content-Type", "application/json");
     ("Partner-Id", application_name c)]
    (Some (PDict [("username", PStr (username c));
                  ("access_key", PStr (access_key c))]))
    None.

Definition _authenticate : M St unit :=
  c <- get_self ;;
  try_except
    (response <- lift (Requests.send (auth_request c)) ;;
     Requests.raise_for_status response ;;
     body <- Requests.response_json response ;;
     token <- py_get body "access_token" ;;
     set_access_token token ;;
     now <- lift Requests.datetime_now ;;
     set_token_expiry (now + Datetime.timedelta 24))
    (fun e =>
       match e with
       | HTTPError r =>
           raise (SiigoAuthError
                    ("Authentication failed: "
                     ++ Py.str_int (status_code r) ++ " - " ++ text r))
       | RequestException msg =>
           raise (SiigoAuthError ("Connection error: " ++ msg))
       | _ => raise e
       end).

(** The dictionary returned by [_get_auth_headers]. *)
Definition bearer_headers (c : SiigoClient) : list (string * string) :=
  [("Authorization", "Bearer " ++ Py.str (_access_token c));
   ("Content-Type", "application/json");
   ("Partner-Id", application_name c)].

Definition _get_auth_headers : M St (list (string * string)) :=
  refresh <- _needs_token_refresh ;;
  (if refresh then _authenticate else ret tt) ;;
  c <- get_self ;;
  ret (bearer_headers c).

Definition _make_request (method endpoint : string)
    (data : option pyval) (params : option dict) : M St pyval :=
  let url := BASE_URL ++ endpoint in
  headers <- _get_auth_headers ;;
  try_except
    (response <- lift (Requests.send
                         (mkRequest method url headers data params)) ;;
     Requests.raise_for_status response ;;
     if negb (text response =? "")%string
     then Requests.response_json response
     else ret (PDict []))
    (fun e =>
       match e with
       | HTTPError r =>
           error_response <-
             try_except (Requests.response_json r)
                        (fun _ => ret (PDict [])) ;;
           raise (SiigoAPIError
                    ("API request failed: "
                     ++ Py.str_int (status_code r) ++ " - " ++ text r)
                    (Some (status_code r))
                    (Some error_response))
       | RequestException msg =>
           raise (SiigoAPIError ("Connection error: " ++ msg) None None)
       | _ => raise e
       end).

(** [if v: params[k] = v]. *)
Definition set_if (d : dict) (k : string) (v : pyval) : dict :=
  if Py.truthy v then Py.set d k v else d.

Definition get_invoices_params (page page_size : Z)
    (created_start created_end date_start date_end updated_start updated_end
     customer_identification customer_branch_office name : pyval) : dict :=
  let params :=
    [("page", PInt page); ("page_size", PInt (Z.min page_size 100))] in
  let params := set_if params "created_start" created_start in
  let params := set_if params "created_end" created_end in
  let params := set_if params "date_start" date_start in
  let params := set_if params "date_end" date_end in
  let params := set_if params "updated_start" updated_start in
  let params := set_if params "updated_end" updated_end in
  let params :=
    set_if params "customer_identification" customer_identification in
  let params :=
    set_if params "customer_branch_office" customer_branch_office in
  set_if params "name" name.

Definition get_invoices (page page_size : Z)
    (created_start created_end date_start date_end updated_start updated_end
     customer_identification customer_branch_office name : pyval)
  : M St pyval :=
  _make_request "GET" INVOICES_ENDPOINT None
    (Some (get_invoices_params page page_size created_start created_end
             date_start date_end updated_start updated_end
             customer_identification customer_branch_office name)).

Definition get_invoice (invoice_id : pyval) : M St pyval :=
  _make_request "GET" (INVOICES_ENDPOINT ++ "/" ++ Py.str invoice_id)
    None None.

Definition create_invoice (invoice_data : pyval) : M St pyval :=
  _make_request "POST" INVOICES_ENDPOINT (Some invoice_data) None.

Definition update_invoice (invoice_id invoice_data : pyval) : M St pyval :=
  _make_request "PUT" (INVOICES_ENDPOINT ++ "/" ++ Py.str invoice_id)
    (Some invoice_data) None.

Definition delete_invoice (invoice_id : pyval) : M St pyval :=
  _make_request "DELETE" (INVOICES_ENDPOINT ++ "/" ++ Py.str invoice_id)
    None None.

Definition get_invoice_pdf (invoice_id : pyval) : M St string :=
  let url :=
    BASE_URL ++ INVOICES_ENDPOINT ++ "/" ++ Py.str invoice_id ++ "/pdf" in
  headers <- _get_auth_headers ;;
  try_except
    (response <- lift (Requests.send
                         (mkRequest "GET" url headers None None)) ;;
     Requests.raise_for_status response ;;
     ret (text response))
    (fun e =>
       match e with
       | HTTPError r =>
           raise (SiigoAPIError
                    ("Failed to get invoice PDF: "
                     ++ Py.str_int (status_code r))
                    (Some (status_code r)) None)
       | _ => raise e
       end).

Definition send_invoice_email (invoice_id : pyval) (email : pyval)
    (copy_to : pyval) : M St pyval :=
  let data := [("mail_to", email)] in
  let data := set_if data "copy_to" copy_to in
  _make_request "POST"
    (INVOICES_ENDPOINT ++ "/" ++ Py.str invoice_id ++ "/mail")
    (Some (PDict data)) None.

Definition get_document_types : M St pyval :=
  _make_request "GET" "/v1/document-types" None (Some [("type", PStr "FV")]).

Definition get_payment_types (document_type : pyval) : M St pyval :=
  _make_request "GET" "/v1/payment-types" None
    (Some [("document_type", document_type)]).

Definition get_taxes : M St pyval :=
  _make_request "GET" "/v1/taxes" None None.

Definition get_sellers : M St pyval :=
  _make_request "GET" "/v1/users" None (Some [("role", PStr "seller")]).

Definition get_products (page page_size : Z) : M St pyval :=
  _make_request "GET" "/v1/products" None
    (Some [("page", PInt page); ("page_size", PInt page_size)]).

Definition get_customers (page page_size : Z) (identification : pyval)
  : M St pyval :=
  let params := [("page", PInt page); ("page_size", PInt page_size)] in
  let params := set_if params "identification" identification in
  _make_request "GET" "/v1/customers" None (Some params).

Definition get_warehouses : M St pyval :=
  _make_request "GET" "/v1/warehouses" None None.

Definition get_cost_centers : M St pyval :=
  _make_request "GET" "/v1/cost-centers" None None.

End Client.

(* ===================================================================== *)
(** ** [parking_invoice.py] *)
(* ===================================================================== *)

(** The state of the process: the module-level dictionary [SIIGO_CONFIG],
    shared by every call, and the world. *)
Record Process : Type := mkProcess {
  SIIGO_CONFIG : dict;
  env : World
}.

(** What [print] has written: a line of text, or the line
    [f"  Error: {e}"] made from the exception [e]. *)
Inductive printed : Type :=
| Line (s : string)
| ErrorLine (e : exn).

(** What the listing of [get_siigo_ids] runs on: its client, the world and
    the standard output. *)
Record Console : Type := mkConsole {
  session : St;
  stdout : list printed
}.

(** The process seen from [get_siigo_ids]: the world and the standard
    output. *)
Record Terminal : Type := mkTerminal {
  outside : World;
  screen : list printed
}.

Module Parking.

(** [SIIGO_CONFIG] as the module is loaded. *)
Definition SIIGO_CONFIG_initial : dict :=
  [("document_type_id", PNone);
   ("seller_id", PNone);
   ("payment_type_id", PNone);
   ("tax_id", PNone)].

Definition ITEM_PARQUEADERO : dict :=
  [("code", PStr "PARQUEADERO");
   ("description", PStr "Servicio de Parqueadero")].

(** A computation on the world alone, run from module level. *)
Definition lift_env {A : Type} (m : M World A) : M Process A :=
  fun p => let '(r, w) := m (env p) in (r, mkProcess (SIIGO_CONFIG p) w).

(** Methods of a client held in a local variable: the instance is dropped
    when they are done, the world is not. *)
Definition with_client {A : Type} (client : SiigoClient) (m : M St A)
  : M Process A :=
  fun p =>
    let '(r, st) := m (mkSt client (env p)) in
    (r, mkProcess (SIIGO_CONFIG p) (world st)).

(** [SIIGO_CONFIG[k]]. *)
Definition config_item (k : string) : M Process pyval :=
  fun p => py_getitem (PDict (SIIGO_CONFIG p)) k p.

(** [SIIGO_CONFIG[k] = v]. *)
Definition config_set (k : string) (v : pyval) : M Process unit :=
  fun p => (Ok tt, mkProcess (Py.set (SIIGO_CONFIG p) k v) (env p)).

Definition required : list string :=
  ["document_type_id"; "seller_id"; "payment_type_id"].

(** [[k for k in required if not SIIGO_CONFIG.get(k)]]. *)
Definition missing_keys (config : dict) : list string :=
  filter (fun k => negb (Py.truthy (Py.get config k))) required.

Definition _validar_config : M Process unit :=
  fun p =>
    let missing := PList (map PStr (missing_keys (SIIGO_CONFIG p))) in
    if Py.truthy missing
    then raise (ValueError
                  ("Faltan IDs de configuración: " ++ Py.str missing
                   ++ ". Ejecuta get_siigo_ids() para obtenerlos.")) p
    else ret tt p.

Definition configurar_siigo
    (document_type_id seller_id payment_type_id tax_id : pyval)
  : M Process unit :=
  config_set "document_type_id" document_type_id ;;
  config_set "seller_id" seller_id ;;
  config_set "payment_type_id" payment_type_id ;;
  if Py.truthy tax_id then config_set "tax_id" tax_id else ret tt.

Section Credentials.

(** The constants imported from the [config] module. *)
Variables SIIGO_USERNAME SIIGO_ACCESS_KEY SIIGO_APP_NAME : string.

(** The dictionary handed to [create_invoice]. *)
Definition invoice_payload (document_type_id seller_id payment_type_id : pyval)
    (taxes : list pyval) (today id_number placa full_name : string)
    (total_amount_cop : Z) : pyval :=
  PDict
    [("document", PDict [("id", document_type_id)]);
     ("date", PStr today);
     ("customer", PDict [("identification", PStr id_number);
                         ("branch_office", PInt 0)]);
     ("seller", seller_id);
     ("items",
      PList [PDict [("code", Py.get ITEM_PARQUEADERO "code");
                    ("description", Py.get ITEM_PARQUEADERO "description");
                    ("quantity", PInt 1);
                    ("price", PInt total_amount_cop);
                    ("discount", PInt 0);
                    ("taxes", PList taxes)]]);
     ("payments",
      PList [PDict [("id", payment_type_id);
                    ("value", PInt total_amount_cop);
                    ("due_date", PStr today)]]);
     ("observations",
      PStr ("Placa: " ++ placa ++ " - Cliente: " ++ full_name))].

Definition emit_electronic_invoice
    (placa id_number full_name email : option string)
    (total_amount_cop : option Z) : M Process pyval :=
  let placa := Py.upper (Py.strip (Py.or_empty placa)) in
  let id_number := Py.strip (Py.or_empty id_number) in
  let full_name := Py.strip (Py.or_empty full_name) in
  let email := Py.strip (Py.or_empty email) in
  let total_amount_cop :=
    match total_amount_cop with Some z => z | None => 0 end in
  if (placa =? "")%string then
    raise (ValueError "Factura electrónica requiere placa del vehículo")
  else if (id_number =? "")%string then
    raise (ValueError "Factura electrónica requiere NIT o cédula")
  else if (full_name =? "")%string then
    raise (ValueError "Factura electrónica requiere nombre o razón social")
  else if (email =? "")%string then
    raise (ValueError "Factura electrónica requiere correo electrónico")
  else if total_amount_cop <=? 0 then
    raise (ValueError "Monto total inválido para facturación")
  else
    _validar_config ;;
    let client :=
      Client.__init__ SIIGO_USERNAME SIIGO_ACCESS_KEY SIIGO_APP_NAME in
    now <- lift_env Requests.datetime_now ;;
    let today := Datetime.strftime_Ymd now in
    document_type_id <- config_item "document_type_id" ;;
    seller_id <- config_item "seller_id" ;;
    tax_set <- config_item "tax_id" ;;
    taxes <- (if Py.truthy tax_set
              then (tax_id <- config_item "tax_id" ;;
                    ret [PDict [("id", tax_id)]])
              else ret []) ;;
    payment_type_id <- config_item "payment_type_id" ;;
    let invoice_data :=
      invoice_payload document_type_id seller_id payment_type_id taxes
        today id_number placa full_name total_amount_cop in
    with_client client
      (result <- Client.create_invoice invoice_data ;;
       (if negb (email =? "")%string
        then try_except
               (invoice_id <- py_getitem result "id" ;;
                Client.send_invoice_email invoice_id (PStr email) PNone ;;
                ret tt)
               (fun _ => ret tt)
        else ret tt) ;;
       ret result).

(** [print(x)]. *)
Definition print (x : printed) : M Console unit :=
  fun c => (Ok tt, mkConsole (session c) (stdout c ++ [x])).

(** A method of the client, called from the listing. *)
Definition on_client {X : Type} (m : M St X) : M Console X :=
  fun c => let '(r, st) := m (session c) in (r, mkConsole st (stdout c)).

(** The values a [for] loop draws from [v]: the items of a list, the keys of
    a dictionary, the characters of a string; nothing else is iterable. *)
Definition py_iter {S : Type} (v : pyval) : M S (list pyval) :=
  match v with
  | PList l => ret l
  | PDict d => ret (map (fun kv => PStr (fst kv)) d)
  | PStr s =>
      ret (map (fun ch => PStr (String ch "")) (list_ascii_of_string s))
  | _ => raise (TypeError "object is not iterable")
  end.

(** [for x in items: body(x)]. *)
Fixpoint for_each {S : Type} (body : pyval -> M S unit) (items : list pyval)
  : M S unit :=
  match items with
  | [] => ret tt
  | x :: r => body x ;; for_each body r
  end.

(** ["=" * 40]. *)
Definition rule : string := string_of_list_ascii (repeat "="%char 40).

(** The line of a document type or of a payment type. *)
Definition print_id_name (x : pyval) : M Console unit :=
  id <- py_get x "id" ;;
  name <- py_get x "name" ;;
  print (Line ("  ID: " ++ Py.str id ++ " - " ++ Py.str name)).

(** The line of a tax. *)
Definition print_tax (x : pyval) : M Console unit :=
  id <- py_get x "id" ;;
  name <- py_get x "name" ;;
  percentage <- py_get x "percentage" ;;
  print (Line ("  ID: " ++ Py.str id ++ " - " ++ Py.str name
               ++ " (" ++ Py.str percentage ++ "%)")).

(** The line of a seller. *)
Definition print_seller (x : pyval) : M Console unit :=
  id <- py_get x "id" ;;
  first_name <- py_get x "first_name" ;;
  last_name <- py_get x "last_name" ;;
  print (Line ("  ID: " ++ Py.str id ++ " - " ++ Py.str first_name
               ++ " " ++ Py.str last_name)).

(** One block of [get_siigo_ids]: the title, then a line per item fetched,
    or the error line of whatever was raised on the way. *)
Definition listing (title : string) (fetch : M St pyval)
    (print_item : pyval -> M Console unit) : M Console unit :=
  try_except
    (print (Line (String "010" title)) ;;
     fetched <- on_client fetch ;;
     items <- py_iter fetched ;;
     for_each print_item items)
    (fun e => print (ErrorLine e)).

Definition get_siigo_ids : M Terminal unit :=
  fun t =>
    let client :=
      Client.__init__ SIIGO_USERNAME SIIGO_ACCESS_KEY SIIGO_APP_NAME in
    let '(r, c) :=
      (print (Line "IDs DE CONFIGURACIÓN SIIGO") ;;
       print (Line rule) ;;
       listing "Tipos de Documento:" Client.get_document_types
         print_id_name ;;
       listing "Métodos de Pago:" (Client.get_payment_types (PStr "FV"))
         print_id_name ;;
       listing "Impuestos:" Client.get_taxes print_tax ;;
       listing "Vendedores:" Client.get_sellers print_seller ;;
       print (Line (String "010" rule)) ;;
       print (Line "Usa estos IDs con configurar_siigo()"))
        (mkConsole (mkSt client (outside t)) (screen t)) in
    (r, mkTerminal (world (session c)) (stdout c)).

End Credentials.

End Parking.

(* ===================================================================== *)
(** ** Vocabulary of the specification *)
(* ===================================================================== *)

(** A token is cached: the two attributes hold something usable. *)
Definition token_cached (c : SiigoClient) : Prop :=
  Py.truthy (_access_token c) = true /\ _token_expiry c <> None.

(** No token is cached, or the time is at or past the cached expiry minus
    one hour. *)
Definition refresh_due (c : SiigoClient) (now : Z) : Prop :=
  ~ token_cached c
  \/ exists expiry,
       _token_expiry c = Some expiry /\ expiry - Datetime.timedelta 1 <= now.

(** The client with its token cache replaced. *)
Definition with_token (c : SiigoClient) (token : pyval) (expiry : option Z)
  : SiigoClient :=
  mkClient (username c) (access_key c) (application_name c) token expiry.

(** Calls to the authentication endpoint. *)
Definition is_auth_call (req : request) : bool :=
  (url req =? Client.BASE_URL ++ Client.AUTH_ENDPOINT)%string.

Definition auth_calls (w : World) : nat :=
  List.length (filter is_auth_call (sent w)).

(** The current time: what [datetime.now()] would read next. *)
Definition current_time (w : World) : Z := clock w (ticks w).

(** The world once [_needs_token_refresh] has run: the clock is read only
    when both attributes are set. *)
Definition checked (c : SiigoClient) (w : World) : World :=
  if Py.truthy (_access_token c)
  then match _token_expiry c with
       | Some _ => Requests.tick w
       | None => w
       end
  else w.

(** The answer of the authentication endpoint is a success carrying the
    JSON object [d]. *)
Definition auth_succeeds (c : SiigoClient) (w : World) (d : dict) : Prop :=
  exists r,
    remote w (sent w) (Client.auth_request c) = Responded r
    /\ Requests.is_error_status (status_code r) = false
    /\ json_body r = JsonOk (PDict d).

(** The error body the dispatcher attaches: the decoded body of the
    response, or [{}] when it does not decode. *)
Definition parsed_error_body (r : response) : pyval :=
  match json_body r with
  | JsonOk v => v
  | JsonError _ => PDict []
  end.

(** An authentication attempt that fails: no response, or a response with
    an error status. *)
Definition auth_fails (c : SiigoClient) (w : World) : Prop :=
  (exists msg, remote w (sent w) (Client.auth_request c) = NoResponse msg)
  \/ (exists r,
         remote w (sent w) (Client.auth_request c) = Responded r
         /\ Requests.is_error_status (status_code r) = true).

(** The failure report with the status code and the text of the response:
    one call made, the instance as before. *)
Definition auth_failure_reports_response (c : SiigoClient) (w : World)
  : Prop :=
  exists r,
    remote w (sent w) (Client.auth_request c) = Responded r
    /\ Client._authenticate (mkSt c w)
       = (Raise (SiigoAuthError
                   ("Authentication failed: "
                    ++ Py.str_int (status_code r) ++ " - " ++ text r)),
          mkSt c (Requests.logged w (Client.auth_request c))).

(** The inputs of [emit_electronic_invoice] after normalization. *)
Definition norm_plate (x : option string) : string :=
  Py.upper (Py.strip (Py.or_empty x)).

Definition norm_text (x : option string) : string :=
  Py.strip (Py.or_empty x).

Definition norm_amount (x : option Z) : Z :=
  match x with Some z => z | None => 0 end.

(** No field is empty after normalization and the amount is strictly
    positive. *)
Definition inputs_valid (placa id_number full_name email : option string)
    (total_amount_cop : option Z) : Prop :=
  norm_plate placa <> ""
  /\ norm_text id_number <> ""
  /\ norm_text full_name <> ""
  /\ norm_text email <> ""
  /\ 0 < norm_amount total_amount_cop.

(** The keys of [SIIGO_CONFIG]: the module never adds or removes one. *)
Definition config_keys (config : dict) : Prop :=
  map fst config
  = ["document_type_id"; "seller_id"; "payment_type_id"; "tax_id"].

(** [v[k]] for reading a payload back: [None] where there is nothing. *)
Definition field (v : pyval) (k : string) : pyval :=
  match v with
  | PDict d => Py.get d k
  | _ => PNone
  end.

(** The payload built from the configuration, the clock reading and the
    inputs. *)
Definition emitted_payload (config : dict) (now : Z)
    (placa id_number full_name : option string) (total_amount_cop : option Z)
  : pyval :=
  Parking.invoice_payload
    (Py.get config "document_type_id")
    (Py.get config "seller_id")
    (Py.get config "payment_type_id")
    (if Py.truthy (Py.get config "tax_id")
     then [PDict [("id", Py.get config "tax_id")]]
     else [])
    (Datetime.strftime_Ymd now)
    (norm_text id_number) (norm_plate placa) (norm_text full_name)
    (norm_amount total_amount_cop).

(** The mail step of [emit_electronic_invoice]: the block under [try], and
    the whole statement. *)
Definition mail_attempt (email : string) (result : pyval) : M St unit :=
  invoice_id <- py_getitem result "id" ;;
  Client.send_invoice_email invoice_id (PStr email) PNone ;;
  ret tt.

Definition mail_step (email : string) (result : pyval) : M St unit :=
  try_except (mail_attempt email result) (fun _ => ret tt).

(** The only line item of a payload, and its only payment. *)
Definition line_item (payload : pyval) : pyval :=
  match field payload "items" with
  | PList [item] => item
  | _ => PNone
  end.

Definition payment (payload : pyval) : pyval :=
  match field payload "payments" with
  | PList [pay] => pay
  | _ => PNone
  end.

(** The call [create_invoice] makes once it has its headers. *)
Definition create_request (headers : list (string * string))
    (invoice_data : pyval) : request :=
  mkRequest "POST" (Client.BASE_URL ++ Client.INVOICES_ENDPOINT) headers
    (Some invoice_data) None.

(** The configuration error of [_validar_config]. *)
Definition config_error (missing : list string) : exn :=
  ValueError ("Faltan IDs de configuración: "
              ++ Py.str (PList (map PStr missing))
              ++ ". Ejecuta get_siigo_ids() para obtenerlos.").

(** [get_invoices] forwards [page_size] as it received it. *)
Definition page_size_forwarded (page_size : Z) : Prop :=
  Py.lookup
    (Client.get_invoices_params 1 page_size
       PNone PNone PNone PNone PNone PNone PNone PNone PNone)
    "page_size"
  = Some (PInt page_size).

(** What a conditional assignment leaves under its key. *)
Definition forwarded (v : pyval) : option pyval :=
  if Py.truthy v then Some v else None.

(** The credentials of two instances are the same. *)
Definition same_credentials (c c' : SiigoClient) : Prop :=
  username c' = username c
  /\ access_key c' = access_key c
  /\ application_name c' = application_name c.

(** The errors the dispatcher lets out: the two kinds of the client, and the
    [AttributeError] of an authentication answer that is not a JSON
    object. *)
Definition dispatcher_error (e : exn) : Prop :=
  match e with
  | SiigoAuthError _ | SiigoAPIError _ _ _ | AttributeError _ => True
  | _ => False
  end.

(** The call made by the dispatcher once it has its headers. *)
Definition dispatched (method endpoint : string)
    (headers : list (string * string)) (data : option pyval)
    (params : option dict) : request :=
  mkRequest method (Client.BASE_URL ++ endpoint) headers data params.

(** The call made by [get_invoice_pdf] once it has its headers. *)
Definition pdf_request (headers : list (string * string))
    (invoice_id : pyval) : request :=
  mkRequest "GET"
    (Client.BASE_URL ++ Client.INVOICES_ENDPOINT ++ "/"
     ++ Py.str invoice_id ++ "/pdf")
    headers None None.

(** A value that is not a dictionary. *)
Definition not_a_dict (v : pyval) : Prop :=
  match v with PDict _ => False | _ => True end.

(** A computation at module level that leaves [SIIGO_CONFIG] as it
    found it. *)
Definition keeps_config {X : Type} (m : M Process X) : Prop :=
  forall p : Process, SIIGO_CONFIG (snd (m p)) = SIIGO_CONFIG p.

(** The call made by [send_invoice_email] without a copy list, once it has
    its headers. *)
Definition mail_request (headers : list (string * string))
    (invoice_id : pyval) (email : string) : request :=
  dispatched "POST"
    (Client.INVOICES_ENDPOINT ++ "/" ++ Py.str invoice_id ++ "/mail")
    headers (Some (PDict [("mail_to", PStr email)])) None.

(** The required keys left unusable by the arguments of
    [configurar_siigo]. *)
Definition unusable (document_type_id seller_id payment_type_id : pyval)
  : list string :=
  ((if Py.truthy document_type_id then [] else ["document_type_id"])
   ++ (if Py.truthy seller_id then [] else ["seller_id"])
   ++ (if Py.truthy payment_type_id then [] else ["payment_type_id"]))%list.

(** A computation of the listing that only prints: the client and the
    world are untouched, the output grows. *)
Definition prints_only {X : Type} (m : M Console X) : Prop :=
  forall c : Console,
    session (snd (m c)) = session c
    /\ exists o, stdout (snd (m c)) = (stdout c ++ o)%list.

(** The four lookups of [get_siigo_ids], one after the other on the same
    client. *)
Definition four_lookups (st : St) : St :=
  snd (Client.get_sellers
         (snd (Client.get_taxes
                 (snd (Client.get_payment_types (PStr "FV")
                         (snd (Client.get_document_types st))))))).

(** The output of [get_siigo_ids] around what its four blocks print under
    their titles. *)
Definition listing_output (o1 o2 o3 o4 : list printed) : list printed :=
  ([Line "IDs DE CONFIGURACIÓN SIIGO"; Line Parking.rule]
   ++ Line (String "010" "Tipos de Documento:") :: o1
   ++ Line (String "010" "Métodos de Pago:") :: o2
   ++ Line (String "010" "Impuestos:") :: o3
   ++ Line (String "010" "Vendedores:") :: o4
   ++ [Line (String "010" Parking.rule);
       Line "Usa estos IDs con configurar_siigo()"])%list.

(** A value that is a dictionary. *)
Definition a_dict (v : pyval) : Prop :=
  match v with PDict _ => True | _ => False end.

(** The line printed for a document type or a payment type. *)
Definition id_name_line (x : pyval) : printed :=
  Line ("  ID: " ++ Py.str (field x "id") ++ " - " ++ Py.str (field x "name")).

(** One of the three line printers of [get_siigo_ids]. *)
Definition line_printer (print_item : pyval -> M Console unit) : Prop :=
  print_item = Parking.print_id_name
  \/ print_item = Parking.print_tax
  \/ print_item = Parking.print_seller.

(** The authentication endpoint never answers, however often it is
    tried. *)
Definition auth_unreachable (c : SiigoClient) (w : World) (msg : string)
  : Prop :=
  forall history, remote w history (Client.auth_request c) = NoResponse msg.

(** Every reading the clock will ever give is less than 23 hours after the
    current one. *)
Definition clock_within_window (w : World) : Prop :=
  forall n, clock w n < current_time w + Datetime.timedelta 23.

(* ===================================================================== *)
(** ** Sample worlds *)
(* ===================================================================== *)

(** Noon of 2026-11-03, then one second per reading. *)
Definition sample_clock (n : nat) : Z :=
  63929304000000000 + Z.of_nat n * 1000000.

(** A service that accepts the credentials, creates invoices and delivers
    mail. *)
Definition sample_remote (history : list request) (req : request) : reply :=
  if is_auth_call req
  then Responded (mkResponse 200 "token"
                    (JsonOk (PDict [("access_token", PStr "abc")])))
  else Responded (mkResponse 201 "created"
                    (JsonOk (PDict [("id", PStr "inv-1")]))).

Definition sample_world : World := mkWorld sample_clock 0 sample_remote [].

(** The sample service under a clock that stands still. *)
Definition frozen_clock (n : nat) : Z := 63929304000000000.

Definition frozen_world : World := mkWorld frozen_clock 0 sample_remote [].

(** No network at all. *)
Definition offline_remote (history : list request) (req : request) : reply :=
  NoResponse "Connection refused".

Definition offline_world : World := mkWorld sample_clock 0 offline_remote [].

(** A service that rejects the credentials. *)
Definition rejecting_remote (history : list request) (req : request)
  : reply :=
  Responded (mkResponse 401 "Unauthorized" (JsonError "Expecting value")).

Definition rejecting_world : World :=
  mkWorld sample_clock 0 rejecting_remote [].

(** Authentication works, every other call finds no network. *)
Definition flaky_remote (history : list request) (req : request) : reply :=
  if is_auth_call req
  then Responded (mkResponse 200 "token"
                    (JsonOk (PDict [("access_token", PStr "abc")])))
  else NoResponse "Connection refused".

Definition flaky_world : World := mkWorld sample_clock 0 flaky_remote [].

(** Authentication works, every other call is answered 500 with a body
    that is not JSON. *)
Definition failing_remote (history : list request) (req : request) : reply :=
  if is_auth_call req
  then Responded (mkResponse 200 "token"
                    (JsonOk (PDict [("access_token", PStr "abc")])))
  else Responded (mkResponse 500 "Internal Server Error"
                    (JsonError "Expecting value")).

Definition failing_world : World := mkWorld sample_clock 0 failing_remote [].

(** Authentication answers 200 with an empty JSON object. *)
Definition tokenless_remote (history : list request) (req : request)
  : reply :=
  Responded (mkResponse 200 "{}" (JsonOk (PDict []))).

Definition tokenless_world : World :=
  mkWorld sample_clock 0 tokenless_remote [].

(** Authentication and invoice creation work, the mail endpoint answers
    500. *)
Definition mail_down_remote (history : list request) (req : request)
  : reply :=
  if is_auth_call req
  then Responded (mkResponse 200 "token"
                    (JsonOk (PDict [("access_token", PStr "abc")])))
  else if (url req =? Client.BASE_URL ++ Client.INVOICES_ENDPOINT)%string
  then Responded (mkResponse 201 "created"
                    (JsonOk (PDict [("id", PStr "inv-1")])))
  else Responded (mkResponse 500 "Internal Server Error"
                    (JsonError "Expecting value")).

Definition mail_down_world : World :=
  mkWorld sample_clock 0 mail_down_remote [].

(** Authentication answers 200 with a JSON array. *)
Definition array_remote (history : list request) (req : request) : reply :=
  Responded (mkResponse 200 "[]" (JsonOk (PList []))).

Definition array_world : World := mkWorld sample_clock 0 array_remote [].

(** Authentication works; every other call is answered 200 with an empty
    body. *)
Definition silent_remote (history : list request) (req : request) : reply :=
  if is_auth_call req
  then Responded (mkResponse 200 "token"
                    (JsonOk (PDict [("access_token", PStr "abc")])))
  else Responded (mkResponse 200 "" (JsonError "Expecting value")).

Definition silent_world : World := mkWorld sample_clock 0 silent_remote [].

(** A client holding the token [abc], good until a day after the first
    reading of the sample clock. *)
Definition warm_client : SiigoClient :=
  mkClient "user" "key" "MyApp" (PStr "abc")
    (Some (sample_clock 0 + Datetime.timedelta 24)).

(** Authentication works; invoice creation answers 200 with a record
    that has no [id]. *)
Definition anonymous_remote (history : list request) (req : request)
  : reply :=
  if is_auth_call req
  then Responded (mkResponse 200 "token"
                    (JsonOk (PDict [("access_token", PStr "abc")])))
  else Responded (mkResponse 200 "created"
                    (JsonOk (PDict [("name", PStr "FV-1")]))).

Definition anonymous_world : World :=
  mkWorld sample_clock 0 anonymous_remote [].

(** [SIIGO_CONFIG] after [configurar_siigo(1, 2, 3)]. *)
Definition sample_config : dict :=
  [("document_type_id", PInt 1);
   ("seller_id", PInt 2);
   ("payment_type_id", PInt 3);
   ("tax_id", PNone)].

(** [SIIGO_CONFIG] after [configurar_siigo(1, None, None)]. *)
Definition partial_config : dict :=
  [("document_type_id", PInt 1);
   ("seller_id", PNone);
   ("payment_type_id", PNone);
   ("tax_id", PNone)].

Definition sample_client : SiigoClient := Client.__init__ "user" "key" "MyApp".

(* ===================================================================== *)
(** ** Run equations of the token manager *)
(* ===================================================================== *)

Ltac run_monad :=
  cbv [bind ret raise try_except Client.lift Client.get_self
       Client.set_access_token Client.set_token_expiry
       Requests.datetime_now Requests.send Requests.raise_for_status
       Requests.response_json py_get py_getitem];
  cbn [self world fst snd].

Lemma needs_token_refresh_run (c : SiigoClient) (w : World) :
  Client._needs_token_refresh (mkSt c w) =
  if negb (Py.truthy (_access_token c)) then (Ok true, mkSt c w)
  else match _token_expiry c with
       | None => (Ok true, mkSt c w)
       | Some expiry =>
           (Ok (expiry - Datetime.timedelta 1 <=? current_time w),
            mkSt c (Requests.tick w))
       end.
Proof.
  unfold Client._needs_token_refresh. run_monad.
  destruct (negb (Py.truthy (_access_token c))); [reflexivity|].
  destruct (_token_expiry c); reflexivity.
Qed.

Lemma authenticate_run (c : SiigoClient) (w : World) :
  Client._authenticate (mkSt c w) =
  let w1 := Requests.logged w (Client.auth_request c) in
  match remote w (sent w) (Client.auth_request c) with
  | NoResponse msg =>
      (Raise (SiigoAuthError ("Connection error: " ++ msg)), mkSt c w1)
  | Responded r =>
      if Requests.is_error_status (status_code r)
      then (Raise (SiigoAuthError
                     ("Authentication failed: "
                      ++ Py.str_int (status_code r) ++ " - " ++ text r)),
            mkSt c w1)
      else match json_body r with
           | JsonError msg =>
               (Raise (SiigoAuthError ("Connection error: " ++ msg)),
                mkSt c w1)
           | JsonOk (PDict d) =>
               (Ok tt,
                mkSt (with_token c (Py.get d "access_token")
                        (Some (current_time w + Datetime.timedelta 24)))
                     (Requests.tick w1))
           | JsonOk _ =>
               (Raise (AttributeError "object has no attribute 'get'"),
                mkSt c w1)
           end
  end.
Proof.
  unfold Client._authenticate. run_monad.
  destruct (remote w (sent w) (Client.auth_request c)) as [r|msg];
    [|reflexivity].
  destruct (Requests.is_error_status (status_code r)); [reflexivity|].
  destruct (json_body r) as [v|msg]; [|reflexivity].
  destruct v; reflexivity.
Qed.

Lemma refresh_due_dec (c : SiigoClient) (now : Z) :
  {refresh_due c now} + {~ refresh_due c now}.
Proof.
  unfold refresh_due, token_cached.
  destruct (Py.truthy (_access_token c)) eqn:Ht.
  - destruct (_token_expiry c) as [e|] eqn:He.
    + destruct (Z_le_dec (e - Datetime.timedelta 1) now) as [Hle|Hgt].
      * left. right. exists e. split; [reflexivity|exact Hle].
      * right. intros [Hn|[e' [Heq Hle]]].
        -- apply Hn. split; [reflexivity|discriminate].
        -- injection Heq as <-. contradiction.
    + left. left. intros [_ Hn]. apply Hn. reflexivity.
  - left. left. intros [Hn _]. discriminate.
Qed.

(** What [_needs_token_refresh] answers, and what it costs. *)
Lemma needs_token_refresh_spec (c : SiigoClient) (w : World) :
  exists b : bool,
    Client._needs_token_refresh (mkSt c w) = (Ok b, mkSt c (checked c w))
    /\ (b = true <-> refresh_due c (current_time w)).
Proof.
  rewrite needs_token_refresh_run. unfold checked, refresh_due, token_cached.
  destruct (Py.truthy (_access_token c)) eqn:Ht; cbn [negb].
  - destruct (_token_expiry c) as [e|] eqn:He.
    + exists (e - Datetime.timedelta 1 <=? current_time w).
      split; [reflexivity|]. rewrite Z.leb_le. split.
      * intros Hle. right. exists e. split; [reflexivity|exact Hle].
      * intros [Hn|[e' [Heq Hle]]].
        -- exfalso. apply Hn. split; [reflexivity|discriminate].
        -- injection Heq as <-. exact Hle.
    + exists true. split; [reflexivity|]. split; [|reflexivity].
      intros _. left. intros [_ Hn]. apply Hn. reflexivity.
  - exists true. split; [reflexivity|]. split; [|reflexivity].
    intros _. left. intros [Hn _]. discriminate.
Qed.

Lemma checked_sent (c : SiigoClient) (w : World) :
  sent (checked c w) = sent w /\ remote (checked c w) = remote w.
Proof.
  unfold checked. destruct (Py.truthy (_access_token c)); [|split; reflexivity].
  destruct (_token_expiry c); split; reflexivity.
Qed.

(** Every run of [_authenticate] makes exactly one call, to the
    authentication endpoint. *)
Lemma authenticate_sent (c : SiigoClient) (w : World) :
  sent (world (snd (Client._authenticate (mkSt c w))))
  = (sent w ++ [Client.auth_request c])%list.
Proof.
  rewrite authenticate_run. cbv zeta.
  destruct (remote w (sent w) (Client.auth_request c)) as [r|msg];
    [|reflexivity].
  destruct (Requests.is_error_status (status_code r)); [reflexivity|].
  destruct (json_body r) as [v|msg]; [|reflexivity].
  destruct v; reflexivity.
Qed.

(** [_get_auth_headers] when no refresh is due: the cached token is used. *)
Lemma get_auth_headers_fresh (c : SiigoClient) (w : World) :
  ~ refresh_due c (current_time w) ->
  Client._get_auth_headers (mkSt c w)
  = (Ok (Client.bearer_headers c), mkSt c (checked c w)).
Proof.
  intros Hfresh.
  destruct (needs_token_refresh_spec c w) as [b [Hrun Hb]].
  unfold Client._get_auth_headers, bind. rewrite Hrun.
  destruct b.
  - exfalso. apply Hfresh. apply Hb. reflexivity.
  - reflexivity.
Qed.

(** [_get_auth_headers] when a refresh is due: [_authenticate] runs. *)
Lemma get_auth_headers_stale (c : SiigoClient) (w : World) :
  refresh_due c (current_time w) ->
  Client._get_auth_headers (mkSt c w)
  = match Client._authenticate (mkSt c (checked c w)) with
    | (Ok _, st) => (Ok (Client.bearer_headers (self st)), st)
    | (Raise e, st) => (Raise e, st)
    end.
Proof.
  intros Hdue.
  destruct (needs_token_refresh_spec c w) as [b [Hrun Hb]].
  unfold Client._get_auth_headers, bind. rewrite Hrun.
  destruct b.
  - destruct (Client._authenticate (mkSt c (checked c w))) as [[u|e] st];
      reflexivity.
  - apply Hb in Hdue. discriminate.
Qed.

Lemma auth_calls_logged (w w' : World) (c : SiigoClient) :
  sent w' = (sent w ++ [Client.auth_request c])%list ->
  auth_calls w' = S (auth_calls w).
Proof.
  intros Hs. unfold auth_calls. rewrite Hs, filter_app, length_app.
  cbn. rewrite Nat.add_1_r. reflexivity.
Qed.

Lemma get_auth_headers_sent (c : SiigoClient) (w : World) :
  (refresh_due c (current_time w) ->
   sent (world (snd (Client._get_auth_headers (mkSt c w))))
   = (sent w ++ [Client.auth_request c])%list)
  /\ (~ refresh_due c (current_time w) ->
      sent (world (snd (Client._get_auth_headers (mkSt c w)))) = sent w).
Proof.
  split; intros H.
  - rewrite get_auth_headers_stale by exact H.
    pose proof (authenticate_sent c (checked c w)) as Hs.
    destruct (Client._authenticate (mkSt c (checked c w))) as [[u|e] st];
      cbn [snd] in *; rewrite Hs; destruct (checked_sent c w) as [-> _];
      reflexivity.
  - rewrite get_auth_headers_fresh by exact H. cbn.
    apply (proj1 (checked_sent c w)).
Qed.

(** A successful authentication caches the token of the answer and an
    expiry 24 hours after the clock reading made at that moment. *)
Lemma authenticate_success (c : SiigoClient) (w : World) (d : dict) :
  auth_succeeds c w d ->
  Client._authenticate (mkSt c w)
  = (Ok tt,
     mkSt (with_token c (Py.get d "access_token")
             (Some (current_time w + Datetime.timedelta 24)))
          (Requests.tick (Requests.logged w (Client.auth_request c)))).
Proof.
  intros [r [Hr [Hs Hj]]]. rewrite authenticate_run. cbv zeta.
  rewrite Hr, Hs, Hj. reflexivity.
Qed.

Lemma fresh_client_refresh_due (u k a : string) (now : Z) :
  refresh_due (Client.__init__ u k a) now.
Proof. left. intros [Ht _]. discriminate. Qed.

Lemma auth_calls_same (w w' : World) :
  sent w' = sent w -> auth_calls w' = auth_calls w.
Proof. intros Hs. unfold auth_calls. rewrite Hs. reflexivity. Qed.

Lemma auth_calls_iff (c : SiigoClient) (w : World) :
  auth_calls (world (snd (Client._get_auth_headers (mkSt c w))))
  = S (auth_calls w)
  <-> refresh_due c (current_time w).
Proof.
  destruct (get_auth_headers_sent c w) as [Hdue Hfresh]. split.
  - intros Hn. destruct (refresh_due_dec c (current_time w)) as [H|H];
      [exact H|].
    apply Hfresh in H. apply auth_calls_same in H. rewrite H in Hn.
    exfalso. revert Hn. apply Nat.neq_succ_diag_r.
  - intros H. apply (auth_calls_logged _ _ c). apply Hdue. exact H.
Qed.

(** C1. Token lifecycle.  (1) A headers call issues one call to the
    authentication endpoint when no token is cached or the time is at or
    past the cached expiry minus one hour, and no call at all otherwise.
    (2) A successful authentication caches the returned token with an expiry
    exactly 24 hours after the clock reading made at the refresh.  (3) On a
    new client whose authentication succeeds with a non-empty token, the
    first headers call makes exactly one authentication call, a further
    headers call strictly before expiry minus one hour makes none, and one
    at or after that instant makes exactly one more. *)
Theorem token_lifecycle :
  (forall (c : SiigoClient) (w : World),
      let st' := snd (Client._get_auth_headers (mkSt c w)) in
      (refresh_due c (current_time w) ->
       sent (world st') = (sent w ++ [Client.auth_request c])%list)
      /\ (~ refresh_due c (current_time w) -> sent (world st') = sent w)
      /\ (auth_calls (world st') = S (auth_calls w)
          <-> refresh_due c (current_time w)))
  /\ (forall (c : SiigoClient) (w : World) (d : dict),
         auth_succeeds c w d ->
         Client._authenticate (mkSt c w)
         = (Ok tt,
            mkSt (with_token c (Py.get d "access_token")
                    (Some (current_time w + Datetime.timedelta 24)))
                 (Requests.tick (Requests.logged w (Client.auth_request c)))))
  /\ (forall (u k a : string) (w : World) (d : dict),
         let c0 := Client.__init__ u k a in
         auth_succeeds c0 w d ->
         Py.truthy (Py.get d "access_token") = true ->
         let st1 := snd (Client._get_auth_headers (mkSt c0 w)) in
         let expiry := current_time w + Datetime.timedelta 24 in
         auth_calls (world st1) = S (auth_calls w)
         /\ (forall w1 : World,
                current_time w1 < expiry - Datetime.timedelta 1 ->
                auth_calls
                  (world (snd (Client._get_auth_headers (mkSt (self st1) w1))))
                = auth_calls w1)
         /\ (forall w2 : World,
                expiry - Datetime.timedelta 1 <= current_time w2 ->
                auth_calls
                  (world (snd (Client._get_auth_headers (mkSt (self st1) w2))))
                = S (auth_calls w2))).
Proof.
  split; [|split].
  - intros c w st'. destruct (get_auth_headers_sent c w) as [Hdue Hfresh].
    split; [exact Hdue|]. split; [exact Hfresh|]. apply auth_calls_iff.
  - intros c w d. apply authenticate_success.
  - intros u k a w d c0 Hok Htok st1 expiry.
    assert (Hst1 : st1 = mkSt (with_token c0 (Py.get d "access_token")
                                 (Some expiry))
                              (Requests.tick
                                 (Requests.logged w (Client.auth_request c0)))).
    { unfold st1.
      rewrite get_auth_headers_stale by apply fresh_client_refresh_due.
      change (checked c0 w) with w.
      rewrite (authenticate_success c0 w d Hok). reflexivity. }
    split; [|split].
    + apply auth_calls_iff. apply fresh_client_refresh_due.
    + intros w1 Hin. apply auth_calls_same.
      apply (proj2 (get_auth_headers_sent (self st1) w1)).
      rewrite Hst1. cbn [self].
      intros [Hn|[e [He Hle]]].
      * apply Hn. split; [exact Htok|discriminate].
      * cbn in He. injection He as <-. lia.
    + intros w2 Hout. apply auth_calls_iff.
      rewrite Hst1. cbn [self]. right. exists expiry.
      split; [reflexivity|exact Hout].
Qed.

Lemma token_lifecycle_witness :
  auth_succeeds sample_client sample_world [("access_token", PStr "abc")]
  /\ auth_calls
       (world (snd (Client._get_auth_headers
                      (mkSt sample_client sample_world))))
     = 1%nat.
Proof.
  assert (Hok : auth_succeeds sample_client sample_world
                  [("access_token", PStr "abc")]).
  { eexists. repeat split; reflexivity. }
  split; [exact Hok|].
  destruct token_lifecycle as (_ & _ & H).
  destruct (H "user" "key" "MyApp" sample_world
              [("access_token", PStr "abc")] Hok eq_refl) as (H1 & _ & _).
  exact H1.
Defined.

(* ===================================================================== *)
(** ** The request dispatcher *)
(* ===================================================================== *)

Lemma make_request_run (method endpoint : string) (data : option pyval)
    (params : option dict) (st : St) :
  Client._make_request method endpoint data params st
  = match Client._get_auth_headers st with
    | (Raise e, st1) => (Raise e, st1)
    | (Ok headers, st1) =>
        let req :=
          mkRequest method (Client.BASE_URL ++ endpoint) headers data params in
        let st2 := mkSt (self st1) (Requests.logged (world st1) req) in
        match remote (world st1) (sent (world st1)) req with
        | NoResponse msg =>
            (Raise (SiigoAPIError ("Connection error: " ++ msg) None None),
             st2)
        | Responded r =>
            if Requests.is_error_status (status_code r)
            then (Raise (SiigoAPIError
                           ("API request failed: "
                            ++ Py.str_int (status_code r) ++ " - " ++ text r)
                           (Some (status_code r))
                           (Some (parsed_error_body r))),
                  st2)
            else if negb (text r =? "")%string
            then match json_body r with
                 | JsonOk v => (Ok v, st2)
                 | JsonError msg =>
                     (Raise (SiigoAPIError ("Connection error: " ++ msg)
                               None None),
                      st2)
                 end
            else (Ok (PDict []), st2)
        end
    end.
Proof.
  unfold Client._make_request, bind at 1.
  destruct (Client._get_auth_headers st) as [[headers|e] st1]; [|reflexivity].
  run_monad. cbv zeta.
  destruct (remote (world st1) (sent (world st1)) _) as [r|msg];
    [|reflexivity].
  unfold parsed_error_body.
  destruct (Requests.is_error_status (status_code r)).
  - destruct (json_body r); reflexivity.
  - destruct (negb (text r =? "")%string); [|reflexivity].
    destruct (json_body r); reflexivity.
Qed.

(** C2. Error translation of the dispatcher.  Once the headers are
    obtained, a response with an error status makes [_make_request] raise
    an API error carrying the status code and the decoded body of the
    response, the empty dictionary standing for a body that does not decode;
    the absence of any response makes it raise an API error with neither
    status code nor body. *)
Theorem dispatcher_error_translation
    (method endpoint : string) (data : option pyval) (params : option dict)
    (st st1 : St) (headers : list (string * string))
    (Hheaders : Client._get_auth_headers st = (Ok headers, st1)) :
  let req :=
    mkRequest method (Client.BASE_URL ++ endpoint) headers data params in
  let answer := remote (world st1) (sent (world st1)) req in
  (forall r : response,
      answer = Responded r ->
      Requests.is_error_status (status_code r) = true ->
      fst (Client._make_request method endpoint data params st)
      = Raise (SiigoAPIError
                 ("API request failed: "
                  ++ Py.str_int (status_code r) ++ " - " ++ text r)
                 (Some (status_code r))
                 (Some (parsed_error_body r)))
      /\ (forall v, json_body r = JsonOk v -> parsed_error_body r = v)
      /\ (forall msg, json_body r = JsonError msg ->
                      parsed_error_body r = PDict []))
  /\ (forall msg : string,
         answer = NoResponse msg ->
         fst (Client._make_request method endpoint data params st)
         = Raise (SiigoAPIError ("Connection error: " ++ msg) None None)).
Proof.
  intros req answer. split.
  - intros r Hr Herr. split; [|split].
    + rewrite make_request_run, Hheaders. cbv zeta.
      fold req. fold answer. rewrite Hr, Herr. reflexivity.
    + intros v Hv. unfold parsed_error_body. rewrite Hv. reflexivity.
    + intros msg Hm. unfold parsed_error_body. rewrite Hm. reflexivity.
  - intros msg Hr. rewrite make_request_run, Hheaders. cbv zeta.
    fold req. fold answer. rewrite Hr. reflexivity.
Qed.

Lemma dispatcher_error_translation_witness :
  fst (Client._make_request "GET" "/v1/taxes" None None
         (mkSt sample_client failing_world))
  = Raise (SiigoAPIError "API request failed: 500 - Internal Server Error"
             (Some 500) (Some (PDict [])))
  /\ fst (Client._make_request "GET" "/v1/taxes" None None
            (mkSt sample_client flaky_world))
     = Raise (SiigoAPIError "Connection error: Connection refused" None None).
Proof.
  split.
  - refine (proj1 (proj1 (dispatcher_error_translation "GET" "/v1/taxes"
                            None None (mkSt sample_client failing_world)
                            _ _ eq_refl)
                     (mkResponse 500 "Internal Server Error"
                        (JsonError "Expecting value"))
                     eq_refl eq_refl)).
  - refine (proj2 (dispatcher_error_translation "GET" "/v1/taxes"
                     None None (mkSt sample_client flaky_world)
                     _ _ eq_refl)
              "Connection refused" eq_refl).
Defined.

(* ===================================================================== *)
(** ** Authentication failures *)
(* ===================================================================== *)

Lemma authenticate_http_error (c : SiigoClient) (w : World) (r : response) :
  remote w (sent w) (Client.auth_request c) = Responded r ->
  Requests.is_error_status (status_code r) = true ->
  Client._authenticate (mkSt c w)
  = (Raise (SiigoAuthError
              ("Authentication failed: "
               ++ Py.str_int (status_code r) ++ " - " ++ text r)),
     mkSt c (Requests.logged w (Client.auth_request c))).
Proof.
  intros Hr Herr. rewrite authenticate_run. cbv zeta.
  rewrite Hr, Herr. reflexivity.
Qed.

Lemma authenticate_no_response (c : SiigoClient) (w : World) (msg : string) :
  remote w (sent w) (Client.auth_request c) = NoResponse msg ->
  Client._authenticate (mkSt c w)
  = (Raise (SiigoAuthError ("Connection error: " ++ msg)),
     mkSt c (Requests.logged w (Client.auth_request c))).
Proof.
  intros Hr. rewrite authenticate_run. cbv zeta. rewrite Hr. reflexivity.
Qed.

(** C3, as stated, fails when no response comes back: the error then
    carries the text of the transport failure, and there is neither a status
    code nor a response text to carry. *)
Lemma auth_failure_without_response :
  auth_fails sample_client offline_world
  /\ Client._authenticate (mkSt sample_client offline_world)
     = (Raise (SiigoAuthError "Connection error: Connection refused"),
        mkSt sample_client
          (Requests.logged offline_world (Client.auth_request sample_client)))
  /\ ~ auth_failure_reports_response sample_client offline_world.
Proof.
  split; [|split].
  - left. exists "Connection refused". reflexivity.
  - reflexivity.
  - intros [r [Hr _]]. discriminate Hr.
Qed.

(** C3, amended.  A failed authentication raises an Authentication-Failed
    error, makes exactly one call and leaves the instance, hence the cached
    token and expiry, as they were: on an error status the message carries
    the status code and the text of the response, when no response comes
    back it carries the text of the transport failure.  A headers call that
    needed the refresh fails the same way, and after a 401 a new client
    still has an empty cache. *)
Theorem auth_failure_atomic (c : SiigoClient) (w : World) :
  (forall r : response,
      remote w (sent w) (Client.auth_request c) = Responded r ->
      Requests.is_error_status (status_code r) = true ->
      Client._authenticate (mkSt c w)
      = (Raise (SiigoAuthError
                  ("Authentication failed: "
                   ++ Py.str_int (status_code r) ++ " - " ++ text r)),
         mkSt c (Requests.logged w (Client.auth_request c))))
  /\ (forall msg : string,
         remote w (sent w) (Client.auth_request c) = NoResponse msg ->
         Client._authenticate (mkSt c w)
         = (Raise (SiigoAuthError ("Connection error: " ++ msg)),
            mkSt c (Requests.logged w (Client.auth_request c))))
  /\ (auth_fails c w ->
      refresh_due c (current_time w) ->
      exists msg : string,
        Client._get_auth_headers (mkSt c w)
        = (Raise (SiigoAuthError msg),
           mkSt c (Requests.logged (checked c w) (Client.auth_request c))))
  /\ (forall r : response,
         remote w (sent w) (Client.auth_request c) = Responded r ->
         status_code r = 401 ->
         _access_token c = PNone ->
         _token_expiry c = None ->
         let out := Client._get_auth_headers (mkSt c w) in
         fst out
         = Raise (SiigoAuthError ("Authentication failed: 401 - " ++ text r))
         /\ _access_token (self (snd out)) = PNone
         /\ _token_expiry (self (snd out)) = None).
Proof.
  split; [|split; [|split]].
  - intros r. apply authenticate_http_error.
  - intros msg. apply authenticate_no_response.
  - intros Hfail Hdue. rewrite get_auth_headers_stale by exact Hdue.
    destruct (checked_sent c w) as [Hs Hr].
    destruct Hfail as [[msg Hm]|[r [Hresp Herr]]].
    + exists ("Connection error: " ++ msg).
      rewrite (authenticate_no_response c (checked c w) msg);
        [reflexivity|]. rewrite Hs, Hr. exact Hm.
    + eexists.
      rewrite (authenticate_http_error c (checked c w) r);
        [reflexivity| |exact Herr]. rewrite Hs, Hr. exact Hresp.
  - intros r Hresp H401 Htok Hexp out.
    assert (Hdue : refresh_due c (current_time w)).
    { left. intros [Ht _]. rewrite Htok in Ht. discriminate. }
    assert (Hchk : checked c w = w).
    { unfold checked. rewrite Htok. reflexivity. }
    unfold out. rewrite get_auth_headers_stale by exact Hdue.
    rewrite Hchk.
    rewrite (authenticate_http_error c w r Hresp);
      [|rewrite H401; reflexivity].
    rewrite H401. cbn [fst snd self]. repeat split; assumption.
Qed.

Lemma auth_failure_atomic_witness :
  Client._authenticate (mkSt sample_client rejecting_world)
  = (Raise (SiigoAuthError "Authentication failed: 401 - Unauthorized"),
     mkSt sample_client
       (Requests.logged rejecting_world (Client.auth_request sample_client)))
  /\ Client._authenticate (mkSt sample_client offline_world)
     = (Raise (SiigoAuthError "Connection error: Connection refused"),
        mkSt sample_client
          (Requests.logged offline_world (Client.auth_request sample_client))).
Proof.
  split.
  - exact (proj1 (auth_failure_atomic sample_client rejecting_world)
             (mkResponse 401 "Unauthorized" (JsonError "Expecting value"))
             eq_refl eq_refl).
  - exact (proj1 (proj2 (auth_failure_atomic sample_client offline_world))
             "Connection refused" eq_refl).
Defined.

(* ===================================================================== *)
(** ** A successful answer without a token *)
(* ===================================================================== *)

Lemma auth_succeeds_checked (c : SiigoClient) (w : World) (d : dict) :
  auth_succeeds c w d -> auth_succeeds c (checked c w) d.
Proof.
  unfold auth_succeeds. destruct (checked_sent c w) as [-> ->].
  exact (fun H => H).
Qed.

(** C10.  When a refresh is due and the authentication endpoint answers
    with a success status and a JSON object without the key
    [access_token], the headers call returns normally with the
    Authorization value [Bearer None], the cache holds [None] and an expiry
    24 hours after the refresh reading, and every later headers call, at any
    time, authenticates again. *)
Theorem token_missing_from_answer
    (c : SiigoClient) (w : World) (d : dict)
    (Hdue : refresh_due c (current_time w))
    (Hok : auth_succeeds c w d)
    (Hmissing : Py.lookup d "access_token" = None) :
  let expiry := current_time (checked c w) + Datetime.timedelta 24 in
  let c' := with_token c PNone (Some expiry) in
  Client._get_auth_headers (mkSt c w)
  = (Ok [("Authorization", "Bearer None");
         ("Content-Type", "application/json");
         ("Partner-Id", application_name c)],
     mkSt c' (Requests.tick
                (Requests.logged (checked c w) (Client.auth_request c))))
  /\ forall w2 : World,
       refresh_due c' (current_time w2)
       /\ sent (world (snd (Client._get_auth_headers (mkSt c' w2))))
          = (sent w2 ++ [Client.auth_request c'])%list
       /\ auth_calls (world (snd (Client._get_auth_headers (mkSt c' w2))))
          = S (auth_calls w2).
Proof.
  intros expiry c'. split.
  - rewrite get_auth_headers_stale by exact Hdue.
    rewrite (authenticate_success c (checked c w) d)
      by (apply auth_succeeds_checked; exact Hok).
    unfold Py.get. rewrite Hmissing. reflexivity.
  - intros w2.
    assert (Hdue2 : refresh_due c' (current_time w2)).
    { left. intros [Ht _]. discriminate. }
    split; [exact Hdue2|]. split.
    + apply (proj1 (get_auth_headers_sent c' w2)). exact Hdue2.
    + apply auth_calls_iff. exact Hdue2.
Qed.

Lemma token_missing_from_answer_witness :
  fst (Client._get_auth_headers (mkSt sample_client tokenless_world))
  = Ok [("Authorization", "Bearer None");
        ("Content-Type", "application/json");
        ("Partner-Id", "MyApp")].
Proof.
  assert (Hdue : refresh_due sample_client (current_time tokenless_world))
    by (left; intros [Ht _]; discriminate).
  assert (Hok : auth_succeeds sample_client tokenless_world [])
    by (eexists; repeat split; reflexivity).
  rewrite (proj1 (token_missing_from_answer sample_client tokenless_world []
                    Hdue Hok eq_refl)).
  reflexivity.
Defined.

(* ===================================================================== *)
(** ** Failures of the PDF fetch *)
(* ===================================================================== *)

(** C9, the failing input.  With the network gone after authentication,
    [get_invoice_pdf] lets the [requests] exception through, where
    [get_invoice] raises an API error; on an error status both raise an
    API error. *)
Theorem pdf_transport_error_escapes :
  fst (Client.get_invoice_pdf (PStr "inv-1") (mkSt sample_client flaky_world))
  = Raise (RequestException "Connection refused")
  /\ fst (Client.get_invoice (PStr "inv-1") (mkSt sample_client flaky_world))
     = Raise (SiigoAPIError "Connection error: Connection refused" None None)
  /\ fst (Client.get_invoice_pdf (PStr "inv-1")
            (mkSt sample_client failing_world))
     = Raise (SiigoAPIError "Failed to get invoice PDF: 500" (Some 500) None).
Proof. repeat split; reflexivity. Qed.

(* ===================================================================== *)
(** ** The submission helper *)
(* ===================================================================== *)

Lemma config_keys_inv (config : dict) :
  config_keys config ->
  exists v1 v2 v3 v4,
    config = [("document_type_id", v1); ("seller_id", v2);
              ("payment_type_id", v3); ("tax_id", v4)].
Proof.
  unfold config_keys. intros H.
  destruct config as [|[k1 v1] [|[k2 v2] [|[k3 v3] [|[k4 v4] [|? ?]]]]];
    try discriminate H.
  cbn in H. injection H as -> -> -> ->.
  exists v1, v2, v3, v4. reflexivity.
Qed.

(** A handler that returns swallows whatever the block raises. *)
Lemma try_except_swallows {S : Type} (m : M S unit) (s : S) :
  fst (try_except m (fun _ => ret tt) s) = Ok tt.
Proof.
  unfold try_except, ret. destruct (m s) as [[[]|e] s']; reflexivity.
Qed.

Lemma mail_step_returns (email : string) (result : pyval) (st : St) :
  fst (mail_step email result st) = Ok tt.
Proof. apply try_except_swallows. Qed.

(** [emit_electronic_invoice] on valid inputs and a complete configuration:
    one clock reading for the date, then [create_invoice] on the payload and
    the mail step, on a new client. *)
Lemma emit_run (U K A : string)
    (placa id_number full_name email : option string)
    (total_amount_cop : option Z) (p : Process) :
  inputs_valid placa id_number full_name email total_amount_cop ->
  config_keys (SIIGO_CONFIG p) ->
  Parking.missing_keys (SIIGO_CONFIG p) = [] ->
  Parking.emit_electronic_invoice U K A
    placa id_number full_name email total_amount_cop p
  = match Client.create_invoice
            (emitted_payload (SIIGO_CONFIG p) (current_time (env p))
               placa id_number full_name total_amount_cop)
            (mkSt (Client.__init__ U K A) (Requests.tick (env p)))
    with
    | (Raise e, st1) => (Raise e, mkProcess (SIIGO_CONFIG p) (world st1))
    | (Ok result, st1) =>
        (Ok result,
         mkProcess (SIIGO_CONFIG p)
           (world (snd (mail_step (norm_text email) result st1))))
    end.
Proof.
  intros (Hp & Hi & Hn & He & Ha) Hkeys Hmiss.
  unfold Parking.emit_electronic_invoice.
  fold (norm_plate placa). fold (norm_text id_number).
  fold (norm_text full_name). fold (norm_text email).
  fold (norm_amount total_amount_cop).
  apply String.eqb_neq in Hp, Hi, Hn, He.
  rewrite Hp, Hi, Hn, He.
  apply Z.leb_gt in Ha. rewrite Ha.
  cbn [negb].
  unfold bind at 1. unfold Parking._validar_config. rewrite Hmiss.
  cbn [map Py.truthy]. unfold ret at 1.
  destruct p as [config w]. cbn [SIIGO_CONFIG env] in *.
  destruct (config_keys_inv config Hkeys) as (v1 & v2 & v3 & v4 & ->).
  unfold emitted_payload.
  cbv [bind Parking.lift_env Requests.datetime_now Parking.config_item
       py_getitem Parking.with_client ret Py.get].
  cbn [SIIGO_CONFIG env Py.lookup String.eqb Ascii.eqb Bool.eqb fst snd].
  fold (current_time w).
  destruct (Py.truthy v4);
    cbn [SIIGO_CONFIG env Py.lookup String.eqb Ascii.eqb Bool.eqb fst snd];
    destruct (Client.create_invoice _ _) as [[result|e] st1];
    try reflexivity;
    match goal with
    | |- context [@try_except St unit ?m ?h st1] =>
        change (@try_except St unit m h st1)
          with (mail_step (norm_text email) result st1)
    end;
    pose proof (mail_step_returns (norm_text email) result st1) as Hmail;
    destruct (mail_step (norm_text email) result st1) as [[u|e] st2];
    try discriminate Hmail; reflexivity.
Qed.

(** C4.  Validation in the submission helper.  The four text inputs are
    trimmed and the plate is upper-cased as well; when one of them is then
    empty, or the amount is not strictly positive, the call raises
    [ValueError] and the process state is untouched: no call is made and the
    clock is not read.  The plate [" abc123 "] normalizes to ["ABC123"]. *)
Theorem validation_before_network (U K A : string)
    (placa id_number full_name email : option string)
    (total_amount_cop : option Z) (p : Process)
    (Hbad : norm_plate placa = ""
            \/ norm_text id_number = ""
            \/ norm_text full_name = ""
            \/ norm_text email = ""
            \/ norm_amount total_amount_cop <= 0) :
  (exists msg : string,
      Parking.emit_electronic_invoice U K A
        placa id_number full_name email total_amount_cop p
      = (Raise (ValueError msg), p))
  /\ norm_plate (Some " abc123 ") = "ABC123".
Proof.
  split; [|reflexivity].
  unfold Parking.emit_electronic_invoice.
  fold (norm_plate placa). fold (norm_text id_number).
  fold (norm_text full_name). fold (norm_text email).
  fold (norm_amount total_amount_cop).
  destruct (String.eqb_spec (norm_plate placa) "") as [Ep|Np];
    [eexists; reflexivity|].
  destruct (String.eqb_spec (norm_text id_number) "") as [Ei|Ni];
    [eexists; reflexivity|].
  destruct (String.eqb_spec (norm_text full_name) "") as [En|Nn];
    [eexists; reflexivity|].
  destruct (String.eqb_spec (norm_text email) "") as [Ee|Ne];
    [eexists; reflexivity|].
  destruct (Z.leb_spec (norm_amount total_amount_cop) 0) as [Ea|Na];
    [eexists; reflexivity|].
  exfalso. destruct Hbad as [H|[H|[H|[H|H]]]];
    [exact (Np H)|exact (Ni H)|exact (Nn H)|exact (Ne H)|lia].
Qed.

Lemma validation_before_network_witness :
  exists msg : string,
    Parking.emit_electronic_invoice "user" "key" "MyApp"
      (Some " abc123 ") (Some "900123456") (Some "Ana Diaz")
      (Some "ana@example.com") (Some 0)
      (mkProcess sample_config sample_world)
    = (Raise (ValueError msg), mkProcess sample_config sample_world).
Proof.
  refine (proj1 (validation_before_network "user" "key" "MyApp"
                   (Some " abc123 ") (Some "900123456") (Some "Ana Diaz")
                   (Some "ana@example.com") (Some 0)
                   (mkProcess sample_config sample_world) _)).
  right. right. right. right. cbn. lia.
Defined.

(* --------------------------------------------------------------------- *)
(** *** Dictionaries *)

Lemma lookup_set (d : dict) (k k' : string) (v : pyval) :
  Py.lookup (Py.set d k v) k'
  = if (k =? k')%string then Some v else Py.lookup d k'.
Proof.
  induction d as [|[k0 v0] d IH]; cbn.
  - reflexivity.
  - destruct (String.eqb_spec k0 k) as [->|Hne]; cbn.
    + destruct (String.eqb_spec k k'); reflexivity.
    + rewrite IH. destruct (String.eqb_spec k0 k') as [->|Hne'].
      * destruct (String.eqb_spec k k') as [->|_]; [contradiction|reflexivity].
      * reflexivity.
Qed.

Lemma get_set_other (d : dict) (k k' : string) (v : pyval) :
  k <> k' -> Py.get (Py.set d k v) k' = Py.get d k'.
Proof.
  intros Hne. unfold Py.get. rewrite lookup_set.
  apply String.eqb_neq in Hne. rewrite Hne. reflexivity.
Qed.

Lemma lookup_set_if (d : dict) (k k' : string) (v : pyval) :
  Py.lookup (Client.set_if d k v) k'
  = if (k =? k')%string && Py.truthy v then Some v else Py.lookup d k'.
Proof.
  unfold Client.set_if. destruct (Py.truthy v).
  - rewrite lookup_set, andb_true_r. reflexivity.
  - rewrite andb_false_r. reflexivity.
Qed.

(** The missing keys do not depend on the tax reference. *)
Lemma missing_keys_ignore_tax (config : dict) (v : pyval) :
  Parking.missing_keys (Py.set config "tax_id" v)
  = Parking.missing_keys config.
Proof.
  unfold Parking.missing_keys, Parking.required. cbn [filter].
  rewrite !get_set_other by discriminate. reflexivity.
Qed.

Lemma missing_keys_spec (config : dict) (k : string) :
  In k (Parking.missing_keys config)
  <-> In k Parking.required /\ Py.truthy (Py.get config k) = false.
Proof.
  unfold Parking.missing_keys. rewrite filter_In, negb_true_iff. reflexivity.
Qed.

(* --------------------------------------------------------------------- *)
(** *** What is submitted *)

(** The call made by [create_invoice] once the headers are there carries
    the payload as its JSON body. *)
Lemma create_invoice_sent (invoice_data : pyval) (st st1 : St)
    (headers : list (string * string)) :
  Client._get_auth_headers st = (Ok headers, st1) ->
  sent (world (snd (Client.create_invoice invoice_data st)))
  = (sent (world st1) ++ [create_request headers invoice_data])%list.
Proof.
  intros Hh. unfold Client.create_invoice.
  rewrite make_request_run, Hh. cbv zeta.
  fold (create_request headers invoice_data).
  destruct (remote (world st1) (sent (world st1)) _) as [r|msg];
    [|reflexivity].
  destruct (Requests.is_error_status (status_code r)); [reflexivity|].
  destruct (negb (text r =? "")%string); [|reflexivity].
  destruct (json_body r); reflexivity.
Qed.

(** C5.  Payload round trip.  On valid inputs and a complete configuration
    the helper hands [create_invoice] a payload whose document id is the
    configured document type, whose date is the clock reading in the form
    YYYY-MM-DD, whose customer identification is the normalized id number,
    whose single line item has the amount as price, quantity 1 and discount
    0, and whose single payment has the amount as value and the invoice date
    as due date; that payload is the JSON body of the call made. *)
Theorem payload_round_trip (U K A : string)
    (placa id_number full_name email : option string)
    (total_amount_cop : option Z) (p : Process)
    (Hvalid : inputs_valid placa id_number full_name email total_amount_cop)
    (Hkeys : config_keys (SIIGO_CONFIG p))
    (Hcomplete : Parking.missing_keys (SIIGO_CONFIG p) = []) :
  let now := current_time (env p) in
  let payload :=
    emitted_payload (SIIGO_CONFIG p) now
      placa id_number full_name total_amount_cop in
  let st0 := mkSt (Client.__init__ U K A) (Requests.tick (env p)) in
  Parking.emit_electronic_invoice U K A
    placa id_number full_name email total_amount_cop p
  = match Client.create_invoice payload st0 with
    | (Raise e, st1) => (Raise e, mkProcess (SIIGO_CONFIG p) (world st1))
    | (Ok result, st1) =>
        (Ok result,
         mkProcess (SIIGO_CONFIG p)
           (world (snd (mail_step (norm_text email) result st1))))
    end
  /\ (forall headers st1,
         Client._get_auth_headers st0 = (Ok headers, st1) ->
         sent (world (snd (Client.create_invoice payload st0)))
         = (sent (world st1) ++ [create_request headers payload])%list)
  /\ field (field payload "document") "id"
     = Py.get (SIIGO_CONFIG p) "document_type_id"
  /\ field payload "date" = PStr (Datetime.strftime_Ymd now)
  /\ (exists y m d,
         Datetime.ord2ymd (Datetime.toordinal now) = (y, m, d)
         /\ Datetime.strftime_Ymd now
            = Datetime.digits4 y ++ "-" ++ Datetime.digits2 m
              ++ "-" ++ Datetime.digits2 d)
  /\ field (field payload "customer") "identification"
     = PStr (norm_text id_number)
  /\ field payload "items" = PList [line_item payload]
  /\ field (line_item payload) "price" = PInt (norm_amount total_amount_cop)
  /\ field (line_item payload) "quantity" = PInt 1
  /\ field (line_item payload) "discount" = PInt 0
  /\ field payload "payments" = PList [payment payload]
  /\ field (payment payload) "value" = PInt (norm_amount total_amount_cop)
  /\ field (payment payload) "due_date" = field payload "date".
Proof.
  intros now payload st0.
  split; [apply emit_run; assumption|].
  split; [intros headers st1; apply create_invoice_sent|].
  split; [reflexivity|]. split; [reflexivity|].
  split.
  { unfold Datetime.strftime_Ymd.
    destruct (Datetime.ord2ymd (Datetime.toordinal now)) as [[y m] d].
    exists y, m, d. split; reflexivity. }
  repeat split; reflexivity.
Qed.

Lemma sample_inputs_valid :
  inputs_valid (Some " abc123 ") (Some " 900123456") (Some "Ana Diaz ")
    (Some "ana@example.com") (Some 12000).
Proof. repeat split; try discriminate. Qed.

Lemma payload_round_trip_witness :
  field (emitted_payload sample_config (current_time sample_world)
           (Some " abc123 ") (Some " 900123456") (Some "Ana Diaz ")
           (Some 12000))
        "date"
  = PStr "2026-11-03".
Proof.
  pose proof (payload_round_trip "user" "key" "MyApp"
                (Some " abc123 ") (Some " 900123456") (Some "Ana Diaz ")
                (Some "ana@example.com") (Some 12000)
                (mkProcess sample_config sample_world)
                sample_inputs_valid eq_refl eq_refl) as H.
  cbv zeta in H. destruct H as (_ & _ & _ & Hdate & _). exact Hdate.
Defined.

(* --------------------------------------------------------------------- *)
(** *** Missing configuration *)

Lemma validar_config_missing (p : Process) :
  Parking.missing_keys (SIIGO_CONFIG p) <> [] ->
  Parking._validar_config p
  = (Raise (config_error (Parking.missing_keys (SIIGO_CONFIG p))), p).
Proof.
  intros Hm. unfold Parking._validar_config, config_error.
  destruct (Parking.missing_keys (SIIGO_CONFIG p)) as [|k r];
    [contradiction|reflexivity].
Qed.

(** [configurar_siigo] writes the three required references, and the tax
    reference when one is given. *)
Lemma configurar_siigo_run (d s pt t : pyval) (p : Process) :
  config_keys (SIIGO_CONFIG p) ->
  Parking.configurar_siigo d s pt t p
  = (Ok tt,
     mkProcess
       [("document_type_id", d); ("seller_id", s); ("payment_type_id", pt);
        ("tax_id", if Py.truthy t then t else Py.get (SIIGO_CONFIG p) "tax_id")]
       (env p)).
Proof.
  intros Hkeys. destruct p as [config w]. cbn [SIIGO_CONFIG env] in *.
  destruct (config_keys_inv config Hkeys) as (v1 & v2 & v3 & v4 & ->).
  unfold Parking.configurar_siigo.
  destruct (Py.truthy t); reflexivity.
Qed.

(** C6.  Missing configuration.  On valid inputs, when a required
    reference (document type, seller, payment type) is unset the call raises
    the configuration error whose message lists the missing keys, these
    being exactly the required keys with nothing usable under them, and the
    process state is untouched.  The tax reference is never among them and
    does not influence them; when it is unset and the rest is complete, the
    call goes on to [create_invoice] with an empty [taxes] list.  As the
    module is loaded the three required keys are all missing. *)
Theorem missing_configuration (U K A : string)
    (placa id_number full_name email : option string)
    (total_amount_cop : option Z) (p : Process)
    (Hvalid : inputs_valid placa id_number full_name email total_amount_cop) :
  let config := SIIGO_CONFIG p in
  let missing := Parking.missing_keys config in
  (missing <> [] ->
   Parking.emit_electronic_invoice U K A
     placa id_number full_name email total_amount_cop p
   = (Raise (config_error missing), p))
  /\ (forall k : string,
         In k missing
         <-> In k Parking.required /\ Py.truthy (Py.get config k) = false)
  /\ ~ In "tax_id" missing
  /\ (forall v : pyval,
         Parking.missing_keys (Py.set config "tax_id" v) = missing)
  /\ (config_keys config ->
      missing = [] ->
      Py.truthy (Py.get config "tax_id") = false ->
      let payload :=
        emitted_payload config (current_time (env p))
          placa id_number full_name total_amount_cop in
      field (line_item payload) "taxes" = PList []
      /\ Parking.emit_electronic_invoice U K A
           placa id_number full_name email total_amount_cop p
         = match Client.create_invoice payload
                   (mkSt (Client.__init__ U K A) (Requests.tick (env p)))
           with
           | (Raise e, st1) => (Raise e, mkProcess config (world st1))
           | (Ok result, st1) =>
               (Ok result,
                mkProcess config
                  (world (snd (mail_step (norm_text email) result st1))))
           end)
  /\ Parking.missing_keys Parking.SIIGO_CONFIG_initial = Parking.required.
Proof.
  intros config missing.
  split; [|split; [|split; [|split; [|split]]]].
  - intros Hm.
    destruct Hvalid as (Hp & Hi & Hn & He & Ha).
    unfold Parking.emit_electronic_invoice.
    fold (norm_plate placa). fold (norm_text id_number).
    fold (norm_text full_name). fold (norm_text email).
    fold (norm_amount total_amount_cop).
    apply String.eqb_neq in Hp, Hi, Hn, He. rewrite Hp, Hi, Hn, He.
    apply Z.leb_gt in Ha. rewrite Ha.
    unfold bind at 1. rewrite (validar_config_missing p Hm). reflexivity.
  - intros k. apply missing_keys_spec.
  - intros Hin. apply missing_keys_spec in Hin. destruct Hin as [Hreq _].
    cbn in Hreq. destruct Hreq as [H|[H|[H|[]]]]; discriminate H.
  - intros v. apply missing_keys_ignore_tax.
  - intros Hkeys Hm Htax payload. split.
    + unfold payload, emitted_payload. rewrite Htax. reflexivity.
    + apply emit_run; assumption.
  - reflexivity.
Qed.

Lemma missing_configuration_witness :
  Parking.emit_electronic_invoice "user" "key" "MyApp"
    (Some " abc123 ") (Some " 900123456") (Some "Ana Diaz ")
    (Some "ana@example.com") (Some 12000)
    (mkProcess partial_config sample_world)
  = (Raise (ValueError
              ("Faltan IDs de configuración: "
               ++ "['seller_id', 'payment_type_id']"
               ++ ". Ejecuta get_siigo_ids() para obtenerlos.")),
     mkProcess partial_config sample_world).
Proof.
  refine (proj1 (missing_configuration "user" "key" "MyApp"
                   (Some " abc123 ") (Some " 900123456") (Some "Ana Diaz ")
                   (Some "ana@example.com") (Some 12000)
                   (mkProcess partial_config sample_world)
                   sample_inputs_valid) _).
  discriminate.
Defined.

(* --------------------------------------------------------------------- *)
(** *** Mail is best effort *)

(** C7.  Mail is best effort.  On valid inputs and a complete
    configuration, once [create_invoice] has returned a record the call
    returns that very record, whatever the mail step does; in particular
    when the block that sends the mail raises an exception, of any kind, the
    call still returns the record and the exception is gone. *)
Theorem email_best_effort (U K A : string)
    (placa id_number full_name email : option string)
    (total_amount_cop : option Z) (p : Process)
    (result : pyval) (st1 : St)
    (Hvalid : inputs_valid placa id_number full_name email total_amount_cop)
    (Hkeys : config_keys (SIIGO_CONFIG p))
    (Hcomplete : Parking.missing_keys (SIIGO_CONFIG p) = [])
    (Hcreated :
       Client.create_invoice
         (emitted_payload (SIIGO_CONFIG p) (current_time (env p))
            placa id_number full_name total_amount_cop)
         (mkSt (Client.__init__ U K A) (Requests.tick (env p)))
       = (Ok result, st1)) :
  fst (Parking.emit_electronic_invoice U K A
         placa id_number full_name email total_amount_cop p)
  = Ok result
  /\ (forall (e : exn) (st2 : St),
         mail_attempt (norm_text email) result st1 = (Raise e, st2) ->
         Parking.emit_electronic_invoice U K A
           placa id_number full_name email total_amount_cop p
         = (Ok result, mkProcess (SIIGO_CONFIG p) (world st2))).
Proof.
  rewrite (emit_run U K A placa id_number full_name email total_amount_cop p
             Hvalid Hkeys Hcomplete), Hcreated.
  split; [reflexivity|].
  intros e st2 Hmail. unfold mail_step, try_except. rewrite Hmail.
  reflexivity.
Qed.

Lemma pair_of_fst {X Y : Type} (x : X * Y) (a : X) :
  fst x = a -> x = (a, snd x).
Proof. intros <-. destruct x; reflexivity. Qed.

Lemma email_best_effort_witness :
  fst (mail_attempt "ana@example.com" (PDict [("id", PStr "inv-1")])
         (snd (Client.create_invoice
                 (emitted_payload sample_config (current_time mail_down_world)
                    (Some " abc123 ") (Some " 900123456") (Some "Ana Diaz ")
                    (Some 12000))
                 (mkSt (Client.__init__ "user" "key" "MyApp")
                    (Requests.tick mail_down_world)))))
  = Raise (SiigoAPIError "API request failed: 500 - Internal Server Error"
             (Some 500) (Some (PDict [])))
  /\ fst (Parking.emit_electronic_invoice "user" "key" "MyApp"
            (Some " abc123 ") (Some " 900123456") (Some "Ana Diaz ")
            (Some "ana@example.com") (Some 12000)
            (mkProcess sample_config mail_down_world))
     = Ok (PDict [("id", PStr "inv-1")]).
Proof.
  split; [vm_compute; reflexivity|].
  refine (proj1 (email_best_effort "user" "key" "MyApp"
                   (Some " abc123 ") (Some " 900123456") (Some "Ana Diaz ")
                   (Some "ana@example.com") (Some 12000)
                   (mkProcess sample_config mail_down_world)
                   (PDict [("id", PStr "inv-1")]) _
                   sample_inputs_valid eq_refl eq_refl
                   (pair_of_fst _ _ _))).
  vm_compute. reflexivity.
Defined.

(* ===================================================================== *)
(** ** Typed operations *)
(* ===================================================================== *)

(** C8, as stated, fails on [get_invoices]: a page size of 200 goes out as
    100. *)
Lemma page_size_is_capped :
  Py.lookup
    (Client.get_invoices_params 1 200
       PNone PNone PNone PNone PNone PNone PNone PNone PNone)
    "page_size"
  = Some (PInt 100)
  /\ ~ page_size_forwarded 200.
Proof.
  split; [reflexivity|]. unfold page_size_forwarded. cbn. discriminate.
Qed.

Ltac lookup_params :=
  unfold Client.get_invoices_params;
  rewrite ?lookup_set_if;
  cbn [String.eqb Ascii.eqb Bool.eqb andb Py.lookup];
  unfold forwarded;
  repeat match goal with
         | |- context [Py.truthy ?v] => destruct (Py.truthy v)
         end;
  reflexivity.

(** C8, amended.  Every typed operation is the dispatcher applied to its
    method, path, body and query, built from the parameters as given, with
    one exception: [get_invoices] sends the smaller of [page_size] and 100.
    An optional filter, and the optional copy list of the mail operation, is
    present exactly when its value is truthy, and then unchanged. *)
Theorem typed_operations_transparent
    (page page_size : Z)
    (created_start created_end date_start date_end updated_start updated_end
     customer_identification customer_branch_office name : pyval)
    (invoice_id invoice_data email copy_to document_type identification
     : pyval) :
  let params :=
    Client.get_invoices_params page page_size created_start created_end
      date_start date_end updated_start updated_end
      customer_identification customer_branch_office name in
  (Client.get_invoices page page_size created_start created_end
     date_start date_end updated_start updated_end
     customer_identification customer_branch_office name
   = Client._make_request "GET" "/v1/invoices" None (Some params)
   /\ Py.lookup params "page" = Some (PInt page)
   /\ Py.lookup params "page_size" = Some (PInt (Z.min page_size 100))
   /\ Py.lookup params "created_start" = forwarded created_start
   /\ Py.lookup params "created_end" = forwarded created_end
   /\ Py.lookup params "date_start" = forwarded date_start
   /\ Py.lookup params "date_end" = forwarded date_end
   /\ Py.lookup params "updated_start" = forwarded updated_start
   /\ Py.lookup params "updated_end" = forwarded updated_end
   /\ Py.lookup params "customer_identification"
      = forwarded customer_identification
   /\ Py.lookup params "customer_branch_office"
      = forwarded customer_branch_office
   /\ Py.lookup params "name" = forwarded name)
  /\ Client.get_invoice invoice_id
     = Client._make_request "GET" ("/v1/invoices/" ++ Py.str invoice_id)
         None None
  /\ Client.create_invoice invoice_data
     = Client._make_request "POST" "/v1/invoices" (Some invoice_data) None
  /\ Client.update_invoice invoice_id invoice_data
     = Client._make_request "PUT" ("/v1/invoices/" ++ Py.str invoice_id)
         (Some invoice_data) None
  /\ Client.delete_invoice invoice_id
     = Client._make_request "DELETE" ("/v1/invoices/" ++ Py.str invoice_id)
         None None
  /\ (exists data : dict,
         Client.send_invoice_email invoice_id email copy_to
         = Client._make_request "POST"
             ("/v1/invoices/" ++ Py.str invoice_id ++ "/mail")
             (Some (PDict data)) None
         /\ Py.lookup data "mail_to" = Some email
         /\ Py.lookup data "copy_to" = forwarded copy_to)
  /\ Client.get_document_types
     = Client._make_request "GET" "/v1/document-types" None
         (Some [("type", PStr "FV")])
  /\ Client.get_payment_types document_type
     = Client._make_request "GET" "/v1/payment-types" None
         (Some [("document_type", document_type)])
  /\ Client.get_taxes = Client._make_request "GET" "/v1/taxes" None None
  /\ Client.get_sellers
     = Client._make_request "GET" "/v1/users" None
         (Some [("role", PStr "seller")])
  /\ Client.get_products page page_size
     = Client._make_request "GET" "/v1/products" None
         (Some [("page", PInt page); ("page_size", PInt page_size)])
  /\ (exists query : dict,
         Client.get_customers page page_size identification
         = Client._make_request "GET" "/v1/customers" None (Some query)
         /\ Py.lookup query "page" = Some (PInt page)
         /\ Py.lookup query "page_size" = Some (PInt page_size)
         /\ Py.lookup query "identification" = forwarded identification)
  /\ Client.get_warehouses
     = Client._make_request "GET" "/v1/warehouses" None None
  /\ Client.get_cost_centers
     = Client._make_request "GET" "/v1/cost-centers" None None.
Proof.
  intros params.
  split.
  { unfold params. split; [reflexivity|].
    repeat split; lookup_params. }
  split; [reflexivity|]. split; [reflexivity|]. split; [reflexivity|].
  split; [reflexivity|].
  split.
  { eexists. split; [reflexivity|].
    split; rewrite lookup_set_if;
      cbn [String.eqb Ascii.eqb Bool.eqb andb Py.lookup]; unfold forwarded;
      destruct (Py.truthy copy_to); reflexivity. }
  split; [reflexivity|]. split; [reflexivity|]. split; [reflexivity|].
  split; [reflexivity|]. split; [reflexivity|].
  split.
  { eexists. split; [reflexivity|].
    repeat split; rewrite lookup_set_if;
      cbn [String.eqb Ascii.eqb Bool.eqb andb Py.lookup]; unfold forwarded;
      destruct (Py.truthy identification); reflexivity. }
  split; reflexivity.
Qed.

(* ===================================================================== *)
(** ** The model at work *)
(* ===================================================================== *)

Example repr_list_of_keys :
  Py.repr (PList [PStr "seller_id"; PStr "payment_type_id"])
  = "['seller_id', 'payment_type_id']".
Proof. reflexivity. Qed.

Example str_nested :
  Py.str (PDict [("a", PInt 1); ("b", PList [PBool true; PNone; PInt (-7)])])
  = "{'a': 1, 'b': [True, None, -7]}".
Proof. reflexivity. Qed.

Example repr_picks_quotes :
  Py.repr_str "it's" = String "034" ("it's" ++ String "034" "")
  /\ Py.repr_str "a\b" = "'a\\b'".
Proof. split; reflexivity. Qed.

Example strip_whitespace_only : Py.strip "   " = "".
Proof. reflexivity. Qed.

Example strip_keeps_inner : Py.strip "  Ana  Diaz " = "Ana  Diaz".
Proof. reflexivity. Qed.

Example ord2ymd_leap_day : Datetime.ord2ymd 738945 = (2024, 2, 29).
Proof. reflexivity. Qed.

Example ord2ymd_end_of_cycle : Datetime.ord2ymd 730485 = (2000, 12, 31).
Proof. reflexivity. Qed.

Example ord2ymd_no_leap_2100 : Datetime.ord2ymd 766704 = (2100, 3, 1).
Proof. reflexivity. Qed.

Example ord2ymd_first_day : Datetime.ord2ymd 1 = (1, 1, 1).
Proof. reflexivity. Qed.

Example sample_clock_date :
  Datetime.strftime_Ymd (sample_clock 0) = "2026-11-03".
Proof. reflexivity. Qed.

(** A whole submission: one authentication, the creation and the mail. *)
Example emit_on_sample_world :
  let out :=
    Parking.emit_electronic_invoice "user" "key" "MyApp"
      (Some " abc123 ") (Some " 900123456") (Some "Ana Diaz ")
      (Some "ana@example.com") (Some 12000)
      (mkProcess sample_config sample_world) in
  fst out = Ok (PDict [("id", PStr "inv-1")])
  /\ map (fun req => (method req, url req)) (sent (env (snd out)))
     = [("POST", "https://api.siigo.com/auth");
        ("POST", "https://api.siigo.com/v1/invoices");
        ("POST", "https://api.siigo.com/v1/invoices/inv-1/mail")].
Proof. vm_compute. split; reflexivity. Qed.

(** [configurar_siigo(1, 2, 3)] on the module as loaded. *)
Example configurar_on_initial :
  Parking.configurar_siigo (PInt 1) (PInt 2) (PInt 3) PNone
    (mkProcess Parking.SIIGO_CONFIG_initial sample_world)
  = (Ok tt, mkProcess sample_config sample_world).
Proof. reflexivity. Qed.

(* ===================================================================== *)
(** ** Further properties of the client *)
(* ===================================================================== *)

Lemma same_credentials_refl (c : SiigoClient) : same_credentials c c.
Proof. repeat split. Qed.

Lemma authenticate_credentials (c : SiigoClient) (w : World) :
  same_credentials c (self (snd (Client._authenticate (mkSt c w)))).
Proof.
  rewrite authenticate_run. cbv zeta.
  destruct (remote w (sent w) (Client.auth_request c)) as [r|msg];
    [|apply same_credentials_refl].
  destruct (Requests.is_error_status (status_code r));
    [apply same_credentials_refl|].
  destruct (json_body r) as [v|msg]; [|apply same_credentials_refl].
  destruct v; repeat split.
Qed.

Lemma get_auth_headers_credentials (c : SiigoClient) (w : World) :
  same_credentials c (self (snd (Client._get_auth_headers (mkSt c w)))).
Proof.
  destruct (refresh_due_dec c (current_time w)) as [Hdue|Hfresh].
  - rewrite get_auth_headers_stale by exact Hdue.
    pose proof (authenticate_credentials c (checked c w)) as H.
    destruct (Client._authenticate (mkSt c (checked c w))) as [[u|e] st];
      exact H.
  - rewrite get_auth_headers_fresh by exact Hfresh.
    apply same_credentials_refl.
Qed.

(** The state the dispatcher ends in: the instance as the headers call left
    it, and one more call when the headers were obtained. *)
Lemma make_request_state (method endpoint : string) (data : option pyval)
    (params : option dict) (st : St) :
  snd (Client._make_request method endpoint data params st)
  = match Client._get_auth_headers st with
    | (Raise e, st1) => st1
    | (Ok headers, st1) =>
        mkSt (self st1)
          (Requests.logged (world st1)
             (dispatched method endpoint headers data params))
    end.
Proof.
  rewrite make_request_run.
  destruct (Client._get_auth_headers st) as [[headers|e] st1];
    [|reflexivity].
  cbv zeta. fold (dispatched method endpoint headers data params).
  destruct (remote (world st1) (sent (world st1)) _) as [r|msg];
    [|reflexivity].
  destruct (Requests.is_error_status (status_code r)); [reflexivity|].
  destruct (negb (text r =? "")%string); [|reflexivity].
  destruct (json_body r); reflexivity.
Qed.

Lemma get_invoice_pdf_run (invoice_id : pyval) (st : St) :
  Client.get_invoice_pdf invoice_id st
  = match Client._get_auth_headers st with
    | (Raise e, st1) => (Raise e, st1)
    | (Ok headers, st1) =>
        let req := pdf_request headers invoice_id in
        let st2 := mkSt (self st1) (Requests.logged (world st1) req) in
        match remote (world st1) (sent (world st1)) req with
        | NoResponse msg => (Raise (RequestException msg), st2)
        | Responded r =>
            if Requests.is_error_status (status_code r)
            then (Raise (SiigoAPIError
                           ("Failed to get invoice PDF: "
                            ++ Py.str_int (status_code r))
                           (Some (status_code r)) None),
                  st2)
            else (Ok (text r), st2)
        end
    end.
Proof.
  unfold Client.get_invoice_pdf, bind at 1.
  destruct (Client._get_auth_headers st) as [[headers|e] st1]; [|reflexivity].
  run_monad. cbv zeta. fold (pdf_request headers invoice_id).
  destruct (remote (world st1) (sent (world st1)) _) as [r|msg];
    [|reflexivity].
  destruct (Requests.is_error_status (status_code r)); reflexivity.
Qed.

(** X1.  No operation of the client touches its credentials: after
    [_authenticate], [_get_auth_headers], the dispatcher (hence every typed
    operation) and [get_invoice_pdf], whatever the outcome, the user name,
    the access key and the application name are those the instance was
    built with. *)
Theorem credentials_never_change (st : St) :
  same_credentials (self st) (self (snd (Client._authenticate st)))
  /\ same_credentials (self st) (self (snd (Client._get_auth_headers st)))
  /\ (forall method endpoint data params,
         same_credentials (self st)
           (self (snd (Client._make_request method endpoint data params st))))
  /\ (forall invoice_id,
         same_credentials (self st)
           (self (snd (Client.get_invoice_pdf invoice_id st)))).
Proof.
  destruct st as [c w]. cbn [self].
  pose proof (get_auth_headers_credentials c w) as Hh.
  split; [apply authenticate_credentials|]. split; [exact Hh|]. split.
  - intros method endpoint data params. rewrite make_request_state.
    destruct (Client._get_auth_headers (mkSt c w)) as [[h|e] st1]; exact Hh.
  - intros invoice_id. rewrite get_invoice_pdf_run.
    destruct (Client._get_auth_headers (mkSt c w)) as [[h|e] st1];
      [|exact Hh].
    cbv zeta.
    destruct (remote (world st1) (sent (world st1)) _) as [r|msg];
      [|exact Hh].
    destruct (Requests.is_error_status (status_code r)); exact Hh.
Qed.

Lemma authenticate_error_kinds (c : SiigoClient) (w : World) (e : exn) :
  fst (Client._authenticate (mkSt c w)) = Raise e -> dispatcher_error e.
Proof.
  rewrite authenticate_run. cbv zeta.
  destruct (remote w (sent w) (Client.auth_request c)) as [r|msg].
  - destruct (Requests.is_error_status (status_code r)).
    + intros H. injection H as <-. exact I.
    + destruct (json_body r) as [v|msg].
      * destruct v; intros H; try discriminate H; injection H as <-; exact I.
      * intros H. injection H as <-. exact I.
  - intros H. injection H as <-. exact I.
Qed.

Lemma get_auth_headers_error_kinds (c : SiigoClient) (w : World) (e : exn) :
  fst (Client._get_auth_headers (mkSt c w)) = Raise e -> dispatcher_error e.
Proof.
  destruct (refresh_due_dec c (current_time w)) as [Hdue|Hfresh].
  - rewrite get_auth_headers_stale by exact Hdue.
    pose proof (authenticate_error_kinds c (checked c w)) as H.
    destruct (Client._authenticate (mkSt c (checked c w))) as [[u|e'] st].
    + discriminate.
    + intros He. injection He as <-. apply H. reflexivity.
  - rewrite get_auth_headers_fresh by exact Hfresh. discriminate.
Qed.

(** X2.  Whatever the world does, an exception leaving the dispatcher is an
    authentication error, an API error, or the [AttributeError] of an
    authentication answer that is not a JSON object: no exception of
    [requests] gets through. *)
Theorem dispatcher_error_kinds (method endpoint : string)
    (data : option pyval) (params : option dict) (st : St) (e : exn) :
  fst (Client._make_request method endpoint data params st) = Raise e ->
  dispatcher_error e
  /\ (forall r, e <> HTTPError r)
  /\ (forall msg, e <> RequestException msg).
Proof.
  intros He.
  assert (Hk : dispatcher_error e).
  { revert He. rewrite make_request_run. destruct st as [c w].
    pose proof (get_auth_headers_error_kinds c w) as Hh.
    destruct (Client._get_auth_headers (mkSt c w)) as [[h|e'] st1].
    - cbv zeta.
      destruct (remote (world st1) (sent (world st1)) _) as [r|msg].
      + destruct (Requests.is_error_status (status_code r)).
        * intros H. injection H as <-. exact I.
        * destruct (negb (text r =? "")%string); [|discriminate].
          destruct (json_body r); [discriminate|].
          intros H. injection H as <-. exact I.
      + intros H. injection H as <-. exact I.
    - intros H. injection H as <-. apply Hh. reflexivity. }
  split; [exact Hk|].
  split; intros x ->; exact Hk.
Qed.

Lemma dispatcher_error_kinds_witness :
  dispatcher_error
    (SiigoAPIError "Connection error: Connection refused" None None).
Proof.
  exact (proj1 (dispatcher_error_kinds "GET" "/v1/taxes" None None
                  (mkSt sample_client flaky_world) _ eq_refl)).
Defined.

Lemma get_auth_headers_auth_fails (c : SiigoClient) (w : World) :
  auth_fails c w ->
  refresh_due c (current_time w) ->
  exists msg : string,
    Client._get_auth_headers (mkSt c w)
    = (Raise (SiigoAuthError msg),
       mkSt c (Requests.logged (checked c w) (Client.auth_request c))).
Proof.
  intros Hfail Hdue. rewrite get_auth_headers_stale by exact Hdue.
  destruct (checked_sent c w) as [Hs Hr].
  destruct Hfail as [[msg Hm]|[r [Hresp Herr]]].
  - exists ("Connection error: " ++ msg).
    rewrite (authenticate_no_response c (checked c w) msg);
      [reflexivity|]. rewrite Hs, Hr. exact Hm.
  - eexists.
    rewrite (authenticate_http_error c (checked c w) r);
      [reflexivity| |exact Herr]. rewrite Hs, Hr. exact Hresp.
Qed.

(** X3.  When a refresh is due and the authentication fails, the dispatcher
    raises the authentication error and the request it was asked to make is
    never sent: the only call made is the one to the authentication
    endpoint, and the instance is as before. *)
Theorem failed_auth_blocks_dispatch (method endpoint : string)
    (data : option pyval) (params : option dict)
    (c : SiigoClient) (w : World)
    (Hfail : auth_fails c w)
    (Hdue : refresh_due c (current_time w)) :
  exists msg : string,
    Client._make_request method endpoint data params (mkSt c w)
    = (Raise (SiigoAuthError msg),
       mkSt c (Requests.logged (checked c w) (Client.auth_request c)))
    /\ sent (Requests.logged (checked c w) (Client.auth_request c))
       = (sent w ++ [Client.auth_request c])%list.
Proof.
  destruct (get_auth_headers_auth_fails c w Hfail Hdue) as [msg Hh].
  exists msg. split.
  - rewrite make_request_run, Hh. reflexivity.
  - cbn. rewrite (proj1 (checked_sent c w)). reflexivity.
Qed.

Lemma failed_auth_blocks_dispatch_witness :
  exists msg : string,
    Client._make_request "GET" "/v1/taxes" None None
      (mkSt sample_client offline_world)
    = (Raise (SiigoAuthError msg),
       mkSt sample_client
         (Requests.logged (checked sample_client offline_world)
            (Client.auth_request sample_client)))
    /\ sent (Requests.logged (checked sample_client offline_world)
               (Client.auth_request sample_client))
       = (sent offline_world ++ [Client.auth_request sample_client])%list.
Proof.
  apply (failed_auth_blocks_dispatch "GET" "/v1/taxes" None None
           sample_client offline_world).
  - left. exists "Connection refused". reflexivity.
  - left. intros [Ht _]. discriminate.
Defined.

(** X4.  The dispatcher on a success status: an empty body gives the empty
    dictionary without any decoding, a body that decodes gives the decoded
    value; either way the instance is as the headers call left it and
    exactly one call was added. *)
Theorem dispatcher_success (method endpoint : string)
    (data : option pyval) (params : option dict)
    (st st1 : St) (headers : list (string * string)) (r : response)
    (Hheaders : Client._get_auth_headers st = (Ok headers, st1))
    (Hanswer :
       remote (world st1) (sent (world st1))
         (dispatched method endpoint headers data params)
       = Responded r)
    (Hstatus : Requests.is_error_status (status_code r) = false) :
  let st2 :=
    mkSt (self st1)
      (Requests.logged (world st1)
         (dispatched method endpoint headers data params)) in
  (text r = "" ->
   Client._make_request method endpoint data params st = (Ok (PDict []), st2))
  /\ (forall v : pyval,
         text r <> "" ->
         json_body r = JsonOk v ->
         Client._make_request method endpoint data params st = (Ok v, st2)).
Proof.
  intros st2. split.
  - intros Hempty. rewrite make_request_run, Hheaders. cbv zeta.
    fold (dispatched method endpoint headers data params).
    rewrite Hanswer, Hstatus, Hempty. reflexivity.
  - intros v Hne Hv. rewrite make_request_run, Hheaders. cbv zeta.
    fold (dispatched method endpoint headers data params).
    rewrite Hanswer, Hstatus, Hv.
    apply String.eqb_neq in Hne. rewrite Hne. reflexivity.
Qed.

Lemma dispatcher_success_witness :
  fst (Client._make_request "DELETE" "/v1/invoices/inv-1" None None
         (mkSt sample_client silent_world))
  = Ok (PDict []).
Proof.
  pose proof (dispatcher_success "DELETE" "/v1/invoices/inv-1" None None
                (mkSt sample_client silent_world) _ _
                (mkResponse 200 "" (JsonError "Expecting value"))
                eq_refl eq_refl eq_refl) as H.
  cbv zeta in H. rewrite (proj1 H eq_refl). reflexivity.
Defined.

(** X5.  Token reuse.  On an instance whose token is cached and not due,
    the dispatcher makes no authentication call: it reads the clock once,
    sends the one request under the cached token and leaves the instance
    untouched. *)
Theorem dispatch_reuses_token (method endpoint : string)
    (data : option pyval) (params : option dict)
    (c : SiigoClient) (w : World)
    (Hfresh : ~ refresh_due c (current_time w)) :
  snd (Client._make_request method endpoint data params (mkSt c w))
  = mkSt c
      (Requests.logged (Requests.tick w)
         (dispatched method endpoint (Client.bearer_headers c) data params)).
Proof.
  rewrite make_request_state, get_auth_headers_fresh by exact Hfresh.
  cbn [self world].
  assert (Hc : checked c w = Requests.tick w).
  { unfold checked. unfold refresh_due, token_cached in Hfresh.
    destruct (Py.truthy (_access_token c)).
    - destruct (_token_expiry c); [reflexivity|].
      exfalso. apply Hfresh. left. intros [_ H]. apply H. reflexivity.
    - exfalso. apply Hfresh. left. intros [H _]. discriminate. }
  rewrite Hc. reflexivity.
Qed.

Lemma dispatch_reuses_token_witness :
  sent (world (snd (Client._make_request "GET" "/v1/taxes" None None
                      (mkSt warm_client sample_world))))
  = [dispatched "GET" "/v1/taxes" (Client.bearer_headers warm_client)
       None None].
Proof.
  assert (Hfresh : ~ refresh_due warm_client (current_time sample_world)).
  { intros [Hn|[e [He Hle]]].
    - apply Hn. split; [reflexivity|discriminate].
    - injection He as <-. vm_compute in Hle. apply Hle. reflexivity. }
  rewrite (dispatch_reuses_token "GET" "/v1/taxes" None None
             warm_client sample_world Hfresh).
  reflexivity.
Defined.

(** X6.  The PDF fetch, once the headers are obtained, makes one GET
    without body or query.  On a success status it returns the content as
    received, whether or not it would decode as JSON; on an error status it
    raises an API error with the status code and no body; when no response
    comes back the exception of [requests] leaves as it is.  The instance
    is as the headers call left it. *)
Theorem pdf_fetch_outcomes (invoice_id : pyval) (st st1 : St)
    (headers : list (string * string))
    (Hheaders : Client._get_auth_headers st = (Ok headers, st1)) :
  let req := pdf_request headers invoice_id in
  let answer := remote (world st1) (sent (world st1)) req in
  (forall r : response,
      answer = Responded r ->
      Requests.is_error_status (status_code r) = false ->
      fst (Client.get_invoice_pdf invoice_id st) = Ok (text r))
  /\ (forall r : response,
         answer = Responded r ->
         Requests.is_error_status (status_code r) = true ->
         fst (Client.get_invoice_pdf invoice_id st)
         = Raise (SiigoAPIError
                    ("Failed to get invoice PDF: "
                     ++ Py.str_int (status_code r))
                    (Some (status_code r)) None))
  /\ (forall msg : string,
         answer = NoResponse msg ->
         fst (Client.get_invoice_pdf invoice_id st)
         = Raise (RequestException msg))
  /\ snd (Client.get_invoice_pdf invoice_id st)
     = mkSt (self st1) (Requests.logged (world st1) req).
Proof.
  intros req answer.
  rewrite get_invoice_pdf_run, Hheaders. cbv zeta.
  fold req. fold answer.
  split; [|split; [|split]].
  - intros r -> ->. reflexivity.
  - intros r -> ->. reflexivity.
  - intros msg ->. reflexivity.
  - destruct answer as [r|msg]; [|reflexivity].
    destruct (Requests.is_error_status (status_code r)); reflexivity.
Qed.

Lemma pdf_fetch_outcomes_witness :
  fst (Client.get_invoice_pdf (PStr "inv-1")
         (mkSt sample_client sample_world))
  = Ok "created".
Proof.
  exact (proj1 (pdf_fetch_outcomes (PStr "inv-1")
                  (mkSt sample_client sample_world) _ _ eq_refl)
           (mkResponse 201 "created" (JsonOk (PDict [("id", PStr "inv-1")])))
           eq_refl eq_refl).
Defined.

(** X7.  When the authentication endpoint answers with a success status
    and a JSON value that is not an object (an array, a string, a number,
    [null]), [_authenticate] raises [AttributeError], which none of its
    handlers catches; one call was made and the token cache is as
    before. *)
Theorem non_object_auth_answer (c : SiigoClient) (w : World)
    (r : response) (v : pyval)
    (Hanswer : remote w (sent w) (Client.auth_request c) = Responded r)
    (Hstatus : Requests.is_error_status (status_code r) = false)
    (Hbody : json_body r = JsonOk v)
    (Hshape : not_a_dict v) :
  exists msg : string,
    Client._authenticate (mkSt c w)
    = (Raise (AttributeError msg),
       mkSt c (Requests.logged w (Client.auth_request c))).
Proof.
  rewrite authenticate_run. cbv zeta. rewrite Hanswer, Hstatus, Hbody.
  destruct v; try (eexists; reflexivity). destruct Hshape.
Qed.

Lemma non_object_auth_answer_witness :
  exists msg : string,
    Client._authenticate (mkSt sample_client array_world)
    = (Raise (AttributeError msg),
       mkSt sample_client
         (Requests.logged array_world (Client.auth_request sample_client))).
Proof.
  exact (non_object_auth_answer sample_client array_world
           (mkResponse 200 "[]" (JsonOk (PList []))) (PList [])
           eq_refl eq_refl eq_refl I).
Defined.

(* ===================================================================== *)
(** ** Further properties of the submission helper *)
(* ===================================================================== *)

(** X8.  The order of the checks.  The first input found wanting decides
    the message: the plate, then the id number, the name, the mail address
    and the amount; each error leaves the process state untouched. *)
Theorem validation_messages (U K A : string)
    (placa id_number full_name email : option string)
    (total_amount_cop : option Z) (p : Process) :
  let run :=
    Parking.emit_electronic_invoice U K A
      placa id_number full_name email total_amount_cop p in
  (norm_plate placa = "" ->
   run = (Raise (ValueError
                   "Factura electrónica requiere placa del vehículo"), p))
  /\ (norm_plate placa <> "" ->
      norm_text id_number = "" ->
      run = (Raise (ValueError
                      "Factura electrónica requiere NIT o cédula"), p))
  /\ (norm_plate placa <> "" ->
      norm_text id_number <> "" ->
      norm_text full_name = "" ->
      run = (Raise (ValueError
                      "Factura electrónica requiere nombre o razón social"),
             p))
  /\ (norm_plate placa <> "" ->
      norm_text id_number <> "" ->
      norm_text full_name <> "" ->
      norm_text email = "" ->
      run = (Raise (ValueError
                      "Factura electrónica requiere correo electrónico"),
             p))
  /\ (norm_plate placa <> "" ->
      norm_text id_number <> "" ->
      norm_text full_name <> "" ->
      norm_text email <> "" ->
      norm_amount total_amount_cop <= 0 ->
      run = (Raise (ValueError "Monto total inválido para facturación"), p)).
Proof.
  intros run. unfold run, Parking.emit_electronic_invoice.
  fold (norm_plate placa). fold (norm_text id_number).
  fold (norm_text full_name). fold (norm_text email).
  fold (norm_amount total_amount_cop).
  repeat split.
  - intros ->. reflexivity.
  - intros Hp ->. apply String.eqb_neq in Hp. rewrite Hp. reflexivity.
  - intros Hp Hi ->. apply String.eqb_neq in Hp, Hi. rewrite Hp, Hi.
    reflexivity.
  - intros Hp Hi Hn ->. apply String.eqb_neq in Hp, Hi, Hn.
    rewrite Hp, Hi, Hn. reflexivity.
  - intros Hp Hi Hn He Ha. apply String.eqb_neq in Hp, Hi, Hn, He.
    rewrite Hp, Hi, Hn, He. apply Z.leb_le in Ha. rewrite Ha. reflexivity.
Qed.

Lemma validation_messages_witness :
  Parking.emit_electronic_invoice "user" "key" "MyApp"
    (Some "ABC123") None (Some "") (Some "ana@example.com") (Some 0)
    (mkProcess sample_config sample_world)
  = (Raise (ValueError "Factura electrónica requiere NIT o cédula"),
     mkProcess sample_config sample_world).
Proof.
  refine (proj1 (proj2 (validation_messages "user" "key" "MyApp"
                          (Some "ABC123") None (Some "")
                          (Some "ana@example.com") (Some 0)
                          (mkProcess sample_config sample_world))) _ eq_refl).
  discriminate.
Defined.

(* --------------------------------------------------------------------- *)
(** *** The configuration is only read *)

Lemma keeps_config_ret {X : Type} (x : X) : keeps_config (ret x).
Proof. intros p. reflexivity. Qed.

Lemma keeps_config_raise {X : Type} (e : exn) :
  keeps_config (@raise Process X e).
Proof. intros p. reflexivity. Qed.

Lemma keeps_config_bind {X Y : Type} (m : M Process X)
    (k : X -> M Process Y) :
  keeps_config m -> (forall x, keeps_config (k x)) -> keeps_config (bind m k).
Proof.
  intros Hm Hk p. unfold bind. specialize (Hm p).
  destruct (m p) as [[x|e] p1]; cbn [snd] in *.
  - rewrite (Hk x p1). exact Hm.
  - exact Hm.
Qed.

Lemma keeps_config_lift_env {X : Type} (m : M World X) :
  keeps_config (Parking.lift_env m).
Proof.
  intros p. unfold Parking.lift_env. destruct (m (env p)). reflexivity.
Qed.

Lemma keeps_config_with_client {X : Type} (c : SiigoClient) (m : M St X) :
  keeps_config (Parking.with_client c m).
Proof.
  intros p. unfold Parking.with_client.
  destruct (m (mkSt c (env p))). reflexivity.
Qed.

Lemma keeps_config_item (k : string) : keeps_config (Parking.config_item k).
Proof.
  intros p. unfold Parking.config_item, py_getitem.
  destruct (Py.lookup (SIIGO_CONFIG p) k); reflexivity.
Qed.

Lemma keeps_config_validar : keeps_config Parking._validar_config.
Proof.
  intros p. unfold Parking._validar_config.
  destruct (Py.truthy _); reflexivity.
Qed.

(** X9.  [emit_electronic_invoice] only reads [SIIGO_CONFIG]: whatever the
    inputs, the configuration and the world, and whether it returns or
    raises, the dictionary is afterwards what it was. *)
Theorem emit_keeps_config (U K A : string)
    (placa id_number full_name email : option string)
    (total_amount_cop : option Z) :
  keeps_config
    (Parking.emit_electronic_invoice U K A
       placa id_number full_name email total_amount_cop).
Proof.
  unfold Parking.emit_electronic_invoice.
  repeat match goal with
         | |- keeps_config (if ?b then _ else _) => destruct b
         end;
    try apply keeps_config_raise.
  repeat first
    [ apply keeps_config_bind; [|intros ?]
    | apply keeps_config_validar
    | apply keeps_config_lift_env
    | apply keeps_config_item
    | apply keeps_config_with_client
    | apply keeps_config_ret
    | match goal with
      | |- keeps_config (if ?b then _ else _) => destruct b
      end ].
Qed.

(* --------------------------------------------------------------------- *)
(** *** Failures on the way *)

(** X10.  A failed creation is surfaced as it is.  On valid inputs and a
    complete configuration, when [create_invoice] raises, the call raises
    the same exception and the world is the one [create_invoice] left: the
    mail step is never started. *)
Theorem creation_failure_surfaces (U K A : string)
    (placa id_number full_name email : option string)
    (total_amount_cop : option Z) (p : Process) (e : exn) (st1 : St)
    (Hvalid : inputs_valid placa id_number full_name email total_amount_cop)
    (Hkeys : config_keys (SIIGO_CONFIG p))
    (Hcomplete : Parking.missing_keys (SIIGO_CONFIG p) = [])
    (Hfailed :
       Client.create_invoice
         (emitted_payload (SIIGO_CONFIG p) (current_time (env p))
            placa id_number full_name total_amount_cop)
         (mkSt (Client.__init__ U K A) (Requests.tick (env p)))
       = (Raise e, st1)) :
  Parking.emit_electronic_invoice U K A
    placa id_number full_name email total_amount_cop p
  = (Raise e, mkProcess (SIIGO_CONFIG p) (world st1)).
Proof.
  rewrite (emit_run U K A placa id_number full_name email total_amount_cop p
             Hvalid Hkeys Hcomplete), Hfailed.
  reflexivity.
Qed.

Lemma creation_failure_surfaces_witness :
  let out :=
    Parking.emit_electronic_invoice "user" "key" "MyApp"
      (Some " abc123 ") (Some " 900123456") (Some "Ana Diaz ")
      (Some "ana@example.com") (Some 12000)
      (mkProcess sample_config failing_world) in
  fst out
  = Raise (SiigoAPIError "API request failed: 500 - Internal Server Error"
             (Some 500) (Some (PDict [])))
  /\ map url (sent (env (snd out)))
     = ["https://api.siigo.com/auth"; "https://api.siigo.com/v1/invoices"].
Proof.
  intros out.
  assert (H : out = (Raise (SiigoAPIError
                              "API request failed: 500 - Internal Server Error"
                              (Some 500) (Some (PDict []))),
                     mkProcess sample_config
                       (world (snd (Client.create_invoice
                                      (emitted_payload sample_config
                                         (current_time failing_world)
                                         (Some " abc123 ") (Some " 900123456")
                                         (Some "Ana Diaz ") (Some 12000))
                                      (mkSt (Client.__init__
                                               "user" "key" "MyApp")
                                         (Requests.tick failing_world))))))).
  { apply (creation_failure_surfaces "user" "key" "MyApp"
             (Some " abc123 ") (Some " 900123456") (Some "Ana Diaz ")
             (Some "ana@example.com") (Some 12000)
             (mkProcess sample_config failing_world) _ _
             sample_inputs_valid eq_refl eq_refl).
    apply pair_of_fst. vm_compute. reflexivity. }
  rewrite H. split; [reflexivity|]. vm_compute. reflexivity.
Defined.

Lemma auth_fails_tick (c : SiigoClient) (w : World) :
  auth_fails c w -> auth_fails c (Requests.tick w).
Proof. exact (fun H => H). Qed.

Lemma get_auth_headers_grows (st : St) :
  exists rest,
    sent (world (snd (Client._get_auth_headers st)))
    = (sent (world st) ++ rest)%list.
Proof.
  destruct st as [c w]. cbn [world].
  destruct (get_auth_headers_sent c w) as [Hdue Hfresh].
  destruct (refresh_due_dec c (current_time w)) as [H|H].
  - eexists. apply Hdue. exact H.
  - exists []. rewrite app_nil_r. apply Hfresh. exact H.
Qed.

Lemma make_request_grows (method endpoint : string) (data : option pyval)
    (params : option dict) (st : St) :
  exists rest,
    sent (world (snd (Client._make_request method endpoint data params st)))
    = (sent (world st) ++ rest)%list.
Proof.
  rewrite make_request_state.
  destruct (get_auth_headers_grows st) as [rest Hrest].
  destruct (Client._get_auth_headers st) as [[h|e] st1]; cbn [snd] in Hrest.
  - eexists. cbn. rewrite Hrest, <- app_assoc. reflexivity.
  - exists rest. exact Hrest.
Qed.

Lemma mail_step_grows (email : string) (result : pyval) (st : St) :
  exists rest,
    sent (world (snd (mail_step email result st)))
    = (sent (world st) ++ rest)%list.
Proof.
  assert (Hnone : exists rest, sent (world st) = (sent (world st) ++ rest)%list)
    by (exists []; rewrite app_nil_r; reflexivity).
  unfold mail_step, mail_attempt, try_except, bind, py_getitem.
  destruct result as [| | | | |d]; try exact Hnone.
  destruct (Py.lookup d "id") as [v|]; [|exact Hnone].
  unfold ret at 1. unfold Client.send_invoice_email.
  destruct (make_request_grows "POST"
              (Client.INVOICES_ENDPOINT ++ "/" ++ Py.str v ++ "/mail")
              (Some (PDict (Client.set_if [("mail_to", PStr email)]
                              "copy_to" PNone)))
              None st) as [rest Hrest].
  destruct (Client._make_request _ _ _ _ st) as [[x|e] st2];
    exists rest; exact Hrest.
Qed.

(** X11.  Every submission authenticates anew, on a client of its own.  On
    valid inputs and a complete configuration, whatever the world, the first
    call made is the one to the authentication endpoint; when that
    authentication fails the call raises the authentication error after the
    one clock reading for the date and that one call: no invoice is
    submitted. *)
Theorem emit_authenticates_first (U K A : string)
    (placa id_number full_name email : option string)
    (total_amount_cop : option Z) (p : Process)
    (Hvalid : inputs_valid placa id_number full_name email total_amount_cop)
    (Hkeys : config_keys (SIIGO_CONFIG p))
    (Hcomplete : Parking.missing_keys (SIIGO_CONFIG p) = []) :
  let run :=
    Parking.emit_electronic_invoice U K A
      placa id_number full_name email total_amount_cop p in
  let login := Client.auth_request (Client.__init__ U K A) in
  (exists rest,
      sent (env (snd run)) = (sent (env p) ++ login :: rest)%list)
  /\ (auth_fails (Client.__init__ U K A) (env p) ->
      exists msg : string,
        run = (Raise (SiigoAuthError msg),
               mkProcess (SIIGO_CONFIG p)
                 (Requests.logged (Requests.tick (env p)) login))).
Proof.
  intros run login. unfold run.
  rewrite (emit_run U K A placa id_number full_name email total_amount_cop p
             Hvalid Hkeys Hcomplete).
  set (c0 := Client.__init__ U K A).
  set (payload := emitted_payload _ _ _ _ _ _).
  split.
  - assert (Hcreate :
      exists rest,
        sent (world (snd (Client.create_invoice payload
                            (mkSt c0 (Requests.tick (env p))))))
        = (sent (env p) ++ login :: rest)%list).
    { unfold Client.create_invoice. rewrite make_request_state.
      rewrite get_auth_headers_stale by apply fresh_client_refresh_due.
      change (checked c0 (Requests.tick (env p))) with (Requests.tick (env p)).
      pose proof (authenticate_sent c0 (Requests.tick (env p))) as Hs.
      destruct (Client._authenticate (mkSt c0 (Requests.tick (env p))))
        as [[u|e] st]; cbn [snd] in Hs.
      - eexists. cbn. rewrite Hs. cbn. rewrite <- app_assoc. reflexivity.
      - exists []. cbn. rewrite Hs. reflexivity. }
    destruct Hcreate as [rest Hrest].
    destruct (Client.create_invoice payload (mkSt c0 (Requests.tick (env p))))
      as [[result|e] st1]; cbn [snd] in Hrest.
    + destruct (mail_step_grows (norm_text email) result st1)
        as [more Hmore].
      exists (rest ++ more)%list. cbn. rewrite Hmore, Hrest.
      rewrite <- app_assoc. reflexivity.
    + exists rest. exact Hrest.
  - intros Hfail.
    destruct (get_auth_headers_auth_fails c0
                (Requests.tick (env p)) (auth_fails_tick _ _ Hfail)
                (fresh_client_refresh_due U K A _)) as [msg Hh].
    exists msg. unfold Client.create_invoice.
    rewrite make_request_run, Hh. reflexivity.
Qed.

Lemma emit_authenticates_first_witness :
  exists msg : string,
    Parking.emit_electronic_invoice "user" "key" "MyApp"
      (Some " abc123 ") (Some " 900123456") (Some "Ana Diaz ")
      (Some "ana@example.com") (Some 12000)
      (mkProcess sample_config rejecting_world)
    = (Raise (SiigoAuthError msg),
       mkProcess sample_config
         (Requests.logged (Requests.tick rejecting_world)
            (Client.auth_request (Client.__init__ "user" "key" "MyApp")))).
Proof.
  apply (proj2 (emit_authenticates_first "user" "key" "MyApp"
                  (Some " abc123 ") (Some " 900123456") (Some "Ana Diaz ")
                  (Some "ana@example.com") (Some 12000)
                  (mkProcess sample_config rejecting_world)
                  sample_inputs_valid eq_refl eq_refl)).
  right. eexists. split; reflexivity.
Defined.

(* --------------------------------------------------------------------- *)
(** *** The mail step *)

(** X12.  A created record without an [id] (or a result that is no
    dictionary at all) is returned as it is, and no mail call is made: the
    world is the one [create_invoice] left. *)
Theorem record_without_id (U K A : string)
    (placa id_number full_name email : option string)
    (total_amount_cop : option Z) (p : Process) (result : pyval) (st1 : St)
    (Hvalid : inputs_valid placa id_number full_name email total_amount_cop)
    (Hkeys : config_keys (SIIGO_CONFIG p))
    (Hcomplete : Parking.missing_keys (SIIGO_CONFIG p) = [])
    (Hcreated :
       Client.create_invoice
         (emitted_payload (SIIGO_CONFIG p) (current_time (env p))
            placa id_number full_name total_amount_cop)
         (mkSt (Client.__init__ U K A) (Requests.tick (env p)))
       = (Ok result, st1))
    (Hnoid : forall d, result = PDict d -> Py.lookup d "id" = None) :
  Parking.emit_electronic_invoice U K A
    placa id_number full_name email total_amount_cop p
  = (Ok result, mkProcess (SIIGO_CONFIG p) (world st1)).
Proof.
  rewrite (emit_run U K A placa id_number full_name email total_amount_cop p
             Hvalid Hkeys Hcomplete), Hcreated.
  unfold mail_step, mail_attempt, try_except, bind, py_getitem.
  destruct result as [| | | | |d]; try reflexivity.
  rewrite (Hnoid d eq_refl). reflexivity.
Qed.

Lemma record_without_id_witness :
  let out :=
    Parking.emit_electronic_invoice "user" "key" "MyApp"
      (Some " abc123 ") (Some " 900123456") (Some "Ana Diaz ")
      (Some "ana@example.com") (Some 12000)
      (mkProcess sample_config anonymous_world) in
  fst out = Ok (PDict [("name", PStr "FV-1")])
  /\ map url (sent (env (snd out)))
     = ["https://api.siigo.com/auth"; "https://api.siigo.com/v1/invoices"].
Proof.
  intros out.
  assert (H : out = (Ok (PDict [("name", PStr "FV-1")]),
                     mkProcess sample_config
                       (world (snd (Client.create_invoice
                                      (emitted_payload sample_config
                                         (current_time anonymous_world)
                                         (Some " abc123 ") (Some " 900123456")
                                         (Some "Ana Diaz ") (Some 12000))
                                      (mkSt (Client.__init__
                                               "user" "key" "MyApp")
                                         (Requests.tick anonymous_world))))))).
  { apply (record_without_id "user" "key" "MyApp"
             (Some " abc123 ") (Some " 900123456") (Some "Ana Diaz ")
             (Some "ana@example.com") (Some 12000)
             (mkProcess sample_config anonymous_world) _ _
             sample_inputs_valid eq_refl eq_refl).
    - apply pair_of_fst. vm_compute. reflexivity.
    - intros d Hd. injection Hd as <-. reflexivity. }
  rewrite H. split; [reflexivity|]. vm_compute. reflexivity.
Defined.

(** X13.  What the mail call is.  When the created record has an [id] and
    the token obtained for the creation is still good, the mail step makes
    exactly one call under that token: a POST to the mail path of that id
    whose body holds the normalized address under [mail_to] and no
    [copy_to]; the record is returned whatever the answer. *)
Theorem mail_call_content (U K A : string)
    (placa id_number full_name email : option string)
    (total_amount_cop : option Z) (p : Process)
    (d : dict) (invoice_id : pyval) (c1 : SiigoClient) (w1 : World)
    (Hvalid : inputs_valid placa id_number full_name email total_amount_cop)
    (Hkeys : config_keys (SIIGO_CONFIG p))
    (Hcomplete : Parking.missing_keys (SIIGO_CONFIG p) = [])
    (Hcreated :
       Client.create_invoice
         (emitted_payload (SIIGO_CONFIG p) (current_time (env p))
            placa id_number full_name total_amount_cop)
         (mkSt (Client.__init__ U K A) (Requests.tick (env p)))
       = (Ok (PDict d), mkSt c1 w1))
    (Hid : Py.lookup d "id" = Some invoice_id)
    (Hfresh : ~ refresh_due c1 (current_time w1)) :
  Parking.emit_electronic_invoice U K A
    placa id_number full_name email total_amount_cop p
  = (Ok (PDict d),
     mkProcess (SIIGO_CONFIG p)
       (Requests.logged (Requests.tick w1)
          (mail_request (Client.bearer_headers c1) invoice_id
             (norm_text email)))).
Proof.
  rewrite (emit_run U K A placa id_number full_name email total_amount_cop p
             Hvalid Hkeys Hcomplete), Hcreated.
  f_equal. f_equal.
  unfold mail_step, mail_attempt, try_except, bind, py_getitem.
  rewrite Hid. unfold ret at 1. unfold Client.send_invoice_email.
  pose proof (dispatch_state_fresh := make_request_state "POST"
                (Client.INVOICES_ENDPOINT ++ "/" ++ Py.str invoice_id
                 ++ "/mail")
                (Some (PDict (Client.set_if [("mail_to", PStr (norm_text email))]
                                "copy_to" PNone)))
                None (mkSt c1 w1)).
  rewrite get_auth_headers_fresh in dispatch_state_fresh by exact Hfresh.
  assert (Hc : checked c1 w1 = Requests.tick w1).
  { unfold checked. unfold refresh_due, token_cached in Hfresh.
    destruct (Py.truthy (_access_token c1)).
    - destruct (_token_expiry c1); [reflexivity|].
      exfalso. apply Hfresh. left. intros [_ H]. apply H. reflexivity.
    - exfalso. apply Hfresh. left. intros [H _]. discriminate. }
  rewrite Hc in dispatch_state_fresh.
  destruct (Client._make_request _ _ _ _ (mkSt c1 w1)) as [[x|e] st2];
    cbn [snd] in *; rewrite dispatch_state_fresh; reflexivity.
Qed.

Lemma mail_call_content_witness :
  map (fun req => (url req, json req))
    (sent (env (snd (Parking.emit_electronic_invoice "user" "key" "MyApp"
                       (Some " abc123 ") (Some " 900123456")
                       (Some "Ana Diaz ") (Some " ana@example.com ")
                       (Some 12000)
                       (mkProcess sample_config mail_down_world)))))
  = [("https://api.siigo.com/auth",
      Some (PDict [("username", PStr "user"); ("access_key", PStr "key")]));
     ("https://api.siigo.com/v1/invoices",
      Some (emitted_payload sample_config (current_time mail_down_world)
              (Some " abc123 ") (Some " 900123456") (Some "Ana Diaz ")
              (Some 12000)));
     ("https://api.siigo.com/v1/invoices/inv-1/mail",
      Some (PDict [("mail_to", PStr "ana@example.com")]))].
Proof.
  assert (Hvalid : inputs_valid (Some " abc123 ") (Some " 900123456")
                     (Some "Ana Diaz ") (Some " ana@example.com ")
                     (Some 12000))
    by (repeat split; try discriminate).
  rewrite (mail_call_content "user" "key" "MyApp"
             (Some " abc123 ") (Some " 900123456") (Some "Ana Diaz ")
             (Some " ana@example.com ") (Some 12000)
             (mkProcess sample_config mail_down_world)
             [("id", PStr "inv-1")] (PStr "inv-1")
             (with_token (Client.__init__ "user" "key" "MyApp") (PStr "abc")
                (Some (sample_clock 1 + Datetime.timedelta 24)))
             (mkWorld sample_clock 2 mail_down_remote
                [Client.auth_request (Client.__init__ "user" "key" "MyApp");
                 create_request
                   (Client.bearer_headers
                      (with_token (Client.__init__ "user" "key" "MyApp")
                         (PStr "abc") None))
                   (emitted_payload sample_config
                      (current_time mail_down_world)
                      (Some " abc123 ") (Some " 900123456")
                      (Some "Ana Diaz ") (Some 12000))])
             Hvalid eq_refl eq_refl).
  - reflexivity.
  - reflexivity.
  - reflexivity.
  - intros [Hn|[e [He Hle]]].
    + apply Hn. split; [reflexivity|discriminate].
    + injection He as <-. vm_compute in Hle. apply Hle. reflexivity.
Defined.

(* --------------------------------------------------------------------- *)
(** *** The rest of the payload *)

(** X14.  Besides the fields of C5, the payload handed to
    [create_invoice] names the configured seller and payment type, puts the
    customer at branch office 0, bills the fixed item [PARQUEADERO], notes
    the normalized plate and name in the observations, and lists the tax
    reference as the one tax of the item when one is configured. *)
Theorem payload_other_fields (U K A : string)
    (placa id_number full_name email : option string)
    (total_amount_cop : option Z) (p : Process)
    (Hvalid : inputs_valid placa id_number full_name email total_amount_cop)
    (Hkeys : config_keys (SIIGO_CONFIG p))
    (Hcomplete : Parking.missing_keys (SIIGO_CONFIG p) = []) :
  let config := SIIGO_CONFIG p in
  let payload :=
    emitted_payload config (current_time (env p))
      placa id_number full_name total_amount_cop in
  Parking.emit_electronic_invoice U K A
    placa id_number full_name email total_amount_cop p
  = match Client.create_invoice payload
            (mkSt (Client.__init__ U K A) (Requests.tick (env p)))
    with
    | (Raise e, st1) => (Raise e, mkProcess config (world st1))
    | (Ok result, st1) =>
        (Ok result,
         mkProcess config
           (world (snd (mail_step (norm_text email) result st1))))
    end
  /\ field payload "seller" = Py.get config "seller_id"
  /\ Py.truthy (field payload "seller") = true
  /\ field (payment payload) "id" = Py.get config "payment_type_id"
  /\ Py.truthy (field (payment payload) "id") = true
  /\ Py.truthy (field (field payload "document") "id") = true
  /\ field (field payload "customer") "branch_office" = PInt 0
  /\ field (line_item payload) "code" = PStr "PARQUEADERO"
  /\ field (line_item payload) "description" = PStr "Servicio de Parqueadero"
  /\ field payload "observations"
     = PStr ("Placa: " ++ norm_plate placa
             ++ " - Cliente: " ++ norm_text full_name)
  /\ (Py.truthy (Py.get config "tax_id") = true ->
      field (line_item payload) "taxes"
      = PList [PDict [("id", Py.get config "tax_id")]]).
Proof.
  intros config payload.
  assert (Htruthy : forall k, In k Parking.required ->
                              Py.truthy (Py.get config k) = true).
  { intros k Hk. destruct (Py.truthy (Py.get config k)) eqn:Ht;
      [reflexivity|].
    assert (Hin : In k (Parking.missing_keys config))
      by (apply missing_keys_spec; split; assumption).
    fold config in Hcomplete. rewrite Hcomplete in Hin. destruct Hin. }
  split; [apply emit_run; assumption|].
  split; [reflexivity|].
  split; [apply Htruthy; cbn; auto|].
  split; [reflexivity|].
  split; [apply Htruthy; cbn; auto|].
  split; [apply Htruthy; cbn; auto|].
  split; [reflexivity|]. split; [reflexivity|]. split; [reflexivity|].
  split; [reflexivity|].
  intros Htax. unfold payload, emitted_payload. rewrite Htax. reflexivity.
Qed.

Lemma payload_other_fields_witness :
  field (emitted_payload sample_config (current_time sample_world)
           (Some " abc123 ") (Some " 900123456") (Some "Ana Diaz ")
           (Some 12000))
        "observations"
  = PStr "Placa: ABC123 - Cliente: Ana Diaz".
Proof.
  pose proof (payload_other_fields "user" "key" "MyApp"
                (Some " abc123 ") (Some " 900123456") (Some "Ana Diaz ")
                (Some "ana@example.com") (Some 12000)
                (mkProcess sample_config sample_world)
                sample_inputs_valid eq_refl eq_refl) as H.
  cbv zeta in H.
  destruct H as (_ & _ & _ & _ & _ & _ & _ & _ & _ & Hobs & _).
  exact Hobs.
Defined.

(* --------------------------------------------------------------------- *)
(** *** The configuration step *)

(** X15.  [configurar_siigo] on the module's dictionary never fails and
    touches nothing but the dictionary, whose four keys stay.  The three
    required references are overwritten with the arguments, whatever they
    are; the tax reference is overwritten only by a truthy argument, so a
    tax once set cannot be unset this way.  Afterwards the missing keys are
    exactly those whose argument was not usable ([None] or 0). *)
Theorem configurar_siigo_effect
    (document_type_id seller_id payment_type_id tax_id : pyval) (p : Process)
    (Hkeys : config_keys (SIIGO_CONFIG p)) :
  let out :=
    Parking.configurar_siigo document_type_id seller_id payment_type_id
      tax_id p in
  let config' := SIIGO_CONFIG (snd out) in
  fst out = Ok tt
  /\ env (snd out) = env p
  /\ config_keys config'
  /\ Py.get config' "document_type_id" = document_type_id
  /\ Py.get config' "seller_id" = seller_id
  /\ Py.get config' "payment_type_id" = payment_type_id
  /\ Py.get config' "tax_id"
     = (if Py.truthy tax_id then tax_id
        else Py.get (SIIGO_CONFIG p) "tax_id")
  /\ Parking.missing_keys config'
     = unusable document_type_id seller_id payment_type_id.
Proof.
  intros out config'. unfold config', out.
  rewrite (configurar_siigo_run _ _ _ _ p Hkeys). cbn [fst snd SIIGO_CONFIG env].
  repeat split.
  unfold Parking.missing_keys, unusable, Parking.required. cbn.
  destruct (Py.truthy document_type_id), (Py.truthy seller_id),
    (Py.truthy payment_type_id); reflexivity.
Qed.

Lemma configurar_siigo_effect_witness :
  Parking.missing_keys
    (SIIGO_CONFIG
       (snd (Parking.configurar_siigo (PInt 1) (PInt 0) PNone (PInt 7)
               (mkProcess Parking.SIIGO_CONFIG_initial sample_world))))
  = ["seller_id"; "payment_type_id"].
Proof.
  pose proof (configurar_siigo_effect (PInt 1) (PInt 0) PNone (PInt 7)
                (mkProcess Parking.SIIGO_CONFIG_initial sample_world)
                eq_refl) as H.
  cbv zeta in H. destruct H as (_ & _ & _ & _ & _ & _ & _ & Hm).
  exact Hm.
Defined.

(** X16.  Configuration, then submission.  After [configurar_siigo] with
    three usable references, a submission with valid inputs passes the
    configuration check and hands [create_invoice] a payload carrying just
    those references; with an unusable one it raises the configuration
    error naming exactly the unusable ones, before any call. *)
Theorem configure_then_emit (U K A : string)
    (document_type_id seller_id payment_type_id tax_id : pyval)
    (placa id_number full_name email : option string)
    (total_amount_cop : option Z) (p : Process)
    (Hkeys : config_keys (SIIGO_CONFIG p))
    (Hvalid : inputs_valid placa id_number full_name email total_amount_cop) :
  let p' :=
    snd (Parking.configurar_siigo document_type_id seller_id payment_type_id
           tax_id p) in
  let run :=
    Parking.emit_electronic_invoice U K A
      placa id_number full_name email total_amount_cop p' in
  let payload :=
    emitted_payload (SIIGO_CONFIG p') (current_time (env p))
      placa id_number full_name total_amount_cop in
  (unusable document_type_id seller_id payment_type_id = [] ->
   run = match Client.create_invoice payload
                 (mkSt (Client.__init__ U K A) (Requests.tick (env p)))
         with
         | (Raise e, st1) =>
             (Raise e, mkProcess (SIIGO_CONFIG p') (world st1))
         | (Ok result, st1) =>
             (Ok result,
              mkProcess (SIIGO_CONFIG p')
                (world (snd (mail_step (norm_text email) result st1))))
         end
   /\ field (field payload "document") "id" = document_type_id
   /\ field payload "seller" = seller_id
   /\ field (payment payload) "id" = payment_type_id)
  /\ (unusable document_type_id seller_id payment_type_id <> [] ->
      run = (Raise (config_error
                      (unusable document_type_id seller_id payment_type_id)),
             p')).
Proof.
  intros p' run payload.
  assert (Hp' : p' = mkProcess
                       [("document_type_id", document_type_id);
                        ("seller_id", seller_id);
                        ("payment_type_id", payment_type_id);
                        ("tax_id", if Py.truthy tax_id then tax_id
                                   else Py.get (SIIGO_CONFIG p) "tax_id")]
                       (env p)).
  { unfold p'. rewrite (configurar_siigo_run _ _ _ _ p Hkeys). reflexivity. }
  assert (Hmiss : Parking.missing_keys (SIIGO_CONFIG p')
                  = unusable document_type_id seller_id payment_type_id).
  { rewrite Hp'. unfold Parking.missing_keys, unusable, Parking.required.
    cbn. destruct (Py.truthy document_type_id), (Py.truthy seller_id),
      (Py.truthy payment_type_id); reflexivity. }
  assert (Henv : env p' = env p) by (rewrite Hp'; reflexivity).
  split.
  - intros Hnone. split.
    + unfold run, payload. rewrite <- Henv. apply emit_run.
      * exact Hvalid.
      * rewrite Hp'. reflexivity.
      * rewrite Hmiss. exact Hnone.
    + unfold payload. rewrite Hp'. repeat split.
  - intros Hsome. unfold run.
    destruct Hvalid as (Hp & Hi & Hn & He & Ha).
    unfold Parking.emit_electronic_invoice.
    fold (norm_plate placa). fold (norm_text id_number).
    fold (norm_text full_name). fold (norm_text email).
    fold (norm_amount total_amount_cop).
    apply String.eqb_neq in Hp, Hi, Hn, He. rewrite Hp, Hi, Hn, He.
    apply Z.leb_gt in Ha. rewrite Ha.
    unfold bind at 1. rewrite validar_config_missing; rewrite Hmiss.
    + reflexivity.
    + exact Hsome.
Qed.

Lemma configure_then_emit_witness :
  Parking.emit_electronic_invoice "user" "key" "MyApp"
    (Some " abc123 ") (Some " 900123456") (Some "Ana Diaz ")
    (Some "ana@example.com") (Some 12000)
    (snd (Parking.configurar_siigo (PInt 1) (PInt 0) PNone (PInt 7)
            (mkProcess Parking.SIIGO_CONFIG_initial sample_world)))
  = (Raise (config_error ["seller_id"; "payment_type_id"]),
     snd (Parking.configurar_siigo (PInt 1) (PInt 0) PNone (PInt 7)
            (mkProcess Parking.SIIGO_CONFIG_initial sample_world))).
Proof.
  refine (proj2 (configure_then_emit "user" "key" "MyApp"
                   (PInt 1) (PInt 0) PNone (PInt 7)
                   (Some " abc123 ") (Some " 900123456") (Some "Ana Diaz ")
                   (Some "ana@example.com") (Some 12000)
                   (mkProcess Parking.SIIGO_CONFIG_initial sample_world)
                   eq_refl sample_inputs_valid) _).
  discriminate.
Defined.

(* ===================================================================== *)
(** ** The listing of identifiers *)
(* ===================================================================== *)

Lemma prints_only_ret {X : Type} (x : X) : prints_only (ret x).
Proof. intros c. split; [reflexivity|]. exists []. symmetry. apply app_nil_r. Qed.

Lemma prints_only_raise {X : Type} (e : exn) :
  prints_only (@raise Console X e).
Proof. intros c. split; [reflexivity|]. exists []. symmetry. apply app_nil_r. Qed.

Lemma prints_only_print (x : printed) : prints_only (Parking.print x).
Proof. intros c. split; [reflexivity|]. exists [x]. reflexivity. Qed.

Lemma prints_only_bind {X Y : Type} (m : M Console X)
    (k : X -> M Console Y) :
  prints_only m -> (forall x, prints_only (k x)) -> prints_only (bind m k).
Proof.
  intros Hm Hk c. unfold bind. destruct (Hm c) as [Hs [o Ho]].
  destruct (m c) as [[x|e] c1]; cbn [snd] in *.
  - destruct (Hk x c1) as [Hs' [o' Ho']]. split.
    + rewrite Hs'. exact Hs.
    + exists (o ++ o')%list. rewrite Ho', Ho, app_assoc. reflexivity.
  - split; [exact Hs|]. exists o. exact Ho.
Qed.

Lemma prints_only_py_get (v : pyval) (k : string) :
  prints_only (@py_get Console v k).
Proof.
  unfold py_get. destruct v; try apply prints_only_raise.
  apply prints_only_ret.
Qed.

Lemma prints_only_for_each (body : pyval -> M Console unit)
    (items : list pyval) :
  (forall x, prints_only (body x)) ->
  prints_only (Parking.for_each body items).
Proof.
  intros Hbody. induction items as [|x r IH]; cbn [Parking.for_each].
  - apply prints_only_ret.
  - apply prints_only_bind; [apply Hbody|intros _; exact IH].
Qed.

Lemma prints_only_id_name (x : pyval) : prints_only (Parking.print_id_name x).
Proof.
  unfold Parking.print_id_name.
  repeat (apply prints_only_bind; [apply prints_only_py_get|intros ?]).
  apply prints_only_print.
Qed.

Lemma prints_only_tax (x : pyval) : prints_only (Parking.print_tax x).
Proof.
  unfold Parking.print_tax.
  repeat (apply prints_only_bind; [apply prints_only_py_get|intros ?]).
  apply prints_only_print.
Qed.

Lemma prints_only_seller (x : pyval) : prints_only (Parking.print_seller x).
Proof.
  unfold Parking.print_seller.
  repeat (apply prints_only_bind; [apply prints_only_py_get|intros ?]).
  apply prints_only_print.
Qed.

(** One block: it returns, the client is where the lookup left it, and the
    output has the title and then the lines of the block, which are the
    error line alone when the lookup raised. *)
Lemma listing_run (title : string) (fetch : M St pyval)
    (print_item : pyval -> M Console unit) (c : Console) :
  (forall x, prints_only (print_item x)) ->
  exists o,
    Parking.listing title fetch print_item c
    = (Ok tt,
       mkConsole (snd (fetch (session c)))
         (stdout c ++ Line (String "010" title) :: o))
    /\ (forall e, fst (fetch (session c)) = Raise e -> o = [ErrorLine e]).
Proof.
  intros Hitem.
  unfold Parking.listing, try_except, bind, Parking.print, Parking.on_client.
  cbn [session stdout].
  destruct (fetch (session c)) as [[v|e] st]; cbn [fst snd].
  - assert (Hloop : forall items,
               exists o,
                 (let (r, s') :=
                    Parking.for_each print_item items
                      (mkConsole st
                         (stdout c ++ [Line (String "010" title)])) in
                  match r with
                  | Ok a => (Ok a, s')
                  | Raise e => (Ok tt, mkConsole (session s')
                                         (stdout s' ++ [ErrorLine e]))
                  end)
                 = (Ok tt,
                    mkConsole st
                      (stdout c ++ Line (String "010" title) :: o))).
    { intros items.
      destruct (prints_only_for_each print_item items Hitem
                  (mkConsole st (stdout c ++ [Line (String "010" title)])))
        as [Hs [o Ho]].
      destruct (Parking.for_each print_item items _) as [[[]|e] [st' out']];
        cbn [snd session stdout] in *; subst st'; rewrite Ho.
      - exists o. rewrite <- app_assoc. reflexivity.
      - exists (o ++ [ErrorLine e])%list. rewrite <- !app_assoc.
        reflexivity. }
    assert (Hfail : forall msg,
               exists o,
                 (Ok tt,
                  mkConsole st
                    ((stdout c ++ [Line (String "010" title)])
                     ++ [ErrorLine (TypeError msg)]))
                 = (Ok tt,
                    mkConsole st
                      (stdout c ++ Line (String "010" title) :: o))).
    { intros msg. exists [ErrorLine (TypeError msg)].
      rewrite <- app_assoc. reflexivity. }
    unfold Parking.py_iter, ret, raise.
    destruct v as [| | |s|l|d];
      first [ destruct (Hfail "object is not iterable") as [o Ho];
              exists o; split; [exact Ho|discriminate]
            | idtac ].
    + destruct (Hloop (map (fun ch => PStr (String ch ""))
                         (list_ascii_of_string s))) as [o Ho].
      exists o. split; [exact Ho|discriminate].
    + destruct (Hloop l) as [o Ho].
      exists o. split; [exact Ho|discriminate].
    + destruct (Hloop (map (fun kv => PStr (fst kv)) d)) as [o Ho].
      exists o. split; [exact Ho|discriminate].
  - exists [ErrorLine e]. split.
    + cbn [session stdout]. rewrite <- app_assoc. reflexivity.
    + intros e' He. injection He as <-. reflexivity.
Qed.

(** The run of [get_siigo_ids]: it returns, and a block whose lookup raised
    printed the error line alone. *)
Lemma get_siigo_ids_run (U K A : string) (t : Terminal) :
  let st0 := mkSt (Client.__init__ U K A) (outside t) in
  let st1 := snd (Client.get_document_types st0) in
  let st2 := snd (Client.get_payment_types (PStr "FV") st1) in
  let st3 := snd (Client.get_taxes st2) in
  exists o1 o2 o3 o4 : list printed,
    Parking.get_siigo_ids U K A t
    = (Ok tt,
       mkTerminal (world (four_lookups st0))
         (screen t ++ listing_output o1 o2 o3 o4))
    /\ (forall e, fst (Client.get_document_types st0) = Raise e ->
                  o1 = [ErrorLine e])
    /\ (forall e, fst (Client.get_payment_types (PStr "FV") st1) = Raise e ->
                  o2 = [ErrorLine e])
    /\ (forall e, fst (Client.get_taxes st2) = Raise e -> o3 = [ErrorLine e])
    /\ (forall e, fst (Client.get_sellers st3) = Raise e ->
                  o4 = [ErrorLine e]).
Proof.
  intros st0 st1 st2 st3.
  unfold Parking.get_siigo_ids, four_lookups, listing_output.
  fold st0. fold st1. fold st2. fold st3.
  cbv [bind Parking.print]. cbn [session stdout].
  destruct (listing_run "Tipos de Documento:" Client.get_document_types
              Parking.print_id_name
              (mkConsole st0
                 ((screen t ++ [Line "IDs DE CONFIGURACIÓN SIIGO"])
                  ++ [Line Parking.rule]))
              prints_only_id_name) as [o1 [H1 E1]].
  rewrite H1. cbn [session stdout] in *. fold st1.
  destruct (listing_run "Métodos de Pago:"
              (Client.get_payment_types (PStr "FV")) Parking.print_id_name
              (mkConsole st1
                 (((screen t ++ [Line "IDs DE CONFIGURACIÓN SIIGO"])
                   ++ [Line Parking.rule])
                  ++ Line (String "010" "Tipos de Documento:") :: o1))
              prints_only_id_name) as [o2 [H2 E2]].
  rewrite H2. cbn [session stdout] in *. fold st2.
  destruct (listing_run "Impuestos:" Client.get_taxes Parking.print_tax
              (mkConsole st2
                 ((((screen t ++ [Line "IDs DE CONFIGURACIÓN SIIGO"])
                    ++ [Line Parking.rule])
                   ++ Line (String "010" "Tipos de Documento:") :: o1)
                  ++ Line (String "010" "Métodos de Pago:") :: o2))
              prints_only_tax) as [o3 [H3 E3]].
  rewrite H3. cbn [session stdout] in *. fold st3.
  destruct (listing_run "Vendedores:" Client.get_sellers Parking.print_seller
              (mkConsole st3
                 (((((screen t ++ [Line "IDs DE CONFIGURACIÓN SIIGO"])
                     ++ [Line Parking.rule])
                    ++ Line (String "010" "Tipos de Documento:") :: o1)
                   ++ Line (String "010" "Métodos de Pago:") :: o2)
                  ++ Line (String "010" "Impuestos:") :: o3))
              prints_only_seller) as [o4 [H4 E4]].
  rewrite H4. cbn [session stdout] in *.
  exists o1, o2, o3, o4.
  split; [|split; [exact E1|split; [exact E2|split; [exact E3|exact E4]]]].
  f_equal. f_equal.
  repeat rewrite <- app_assoc. cbn [app]. reflexivity.
Qed.

(** X17.  [get_siigo_ids] always returns, whatever the service does: each
    of its four blocks absorbs what its lookup or its loop raises.  The
    output is the heading and the rule, the four titles in their order each
    followed by the lines of its block, then the closing rule and hint; the
    world is the one left by the four lookups made one after the other on a
    single new client. *)
Theorem listing_always_returns (U K A : string) (t : Terminal) :
  exists o1 o2 o3 o4 : list printed,
    Parking.get_siigo_ids U K A t
    = (Ok tt,
       mkTerminal
         (world (four_lookups (mkSt (Client.__init__ U K A) (outside t))))
         (screen t ++ listing_output o1 o2 o3 o4)).
Proof.
  destruct (get_siigo_ids_run U K A t) as (o1 & o2 & o3 & o4 & Hrun & _).
  exists o1, o2, o3, o4. exact Hrun.
Qed.

(** A lookup on a new client that cannot reach the authentication
    endpoint. *)
Lemma lookup_unreachable (method endpoint : string) (data : option pyval)
    (params : option dict) (U K A : string) (w : World) (msg : string) :
  auth_unreachable (Client.__init__ U K A) w msg ->
  Client._make_request method endpoint data params
    (mkSt (Client.__init__ U K A) w)
  = (Raise (SiigoAuthError ("Connection error: " ++ msg)),
     mkSt (Client.__init__ U K A)
       (Requests.logged w (Client.auth_request (Client.__init__ U K A)))).
Proof.
  intros Hdown. rewrite make_request_run.
  rewrite get_auth_headers_stale by apply fresh_client_refresh_due.
  change (checked (Client.__init__ U K A) w) with w.
  rewrite (authenticate_no_response _ w msg (Hdown (sent w))).
  reflexivity.
Qed.

(** X18.  With the authentication endpoint out of reach, [get_siigo_ids]
    still returns: each of the four blocks tries to authenticate again (the
    failure is not remembered), so four calls are made, all to the
    authentication endpoint, and each block prints its title and the
    connection error. *)
Theorem listing_when_unreachable (U K A : string) (t : Terminal)
    (msg : string)
    (Hdown : auth_unreachable (Client.__init__ U K A) (outside t) msg) :
  let login := Client.auth_request (Client.__init__ U K A) in
  let failure :=
    [ErrorLine (SiigoAuthError ("Connection error: " ++ msg))] in
  Parking.get_siigo_ids U K A t
  = (Ok tt,
     mkTerminal
       (mkWorld (clock (outside t)) (ticks (outside t)) (remote (outside t))
          (sent (outside t) ++ [login; login; login; login]))
       (screen t ++ listing_output failure failure failure failure)).
Proof.
  intros login failure.
  set (c0 := Client.__init__ U K A) in *.
  set (w := outside t) in *.
  assert (Hstep : forall w', remote w' = remote w ->
            forall method endpoint data params,
              Client._make_request method endpoint data params (mkSt c0 w')
              = (Raise (SiigoAuthError ("Connection error: " ++ msg)),
                 mkSt c0 (Requests.logged w' login))).
  { intros w' Hr method endpoint data params.
    apply lookup_unreachable. intros history. rewrite Hr. apply Hdown. }
  destruct (get_siigo_ids_run U K A t)
    as (o1 & o2 & o3 & o4 & Hrun & E1 & E2 & E3 & E4).
  fold c0 in Hrun, E1, E2, E3, E4. fold w in Hrun, E1, E2, E3, E4.
  unfold four_lookups in Hrun.
  unfold Client.get_document_types, Client.get_payment_types,
    Client.get_taxes, Client.get_sellers in Hrun, E1, E2, E3, E4.
  rewrite (Hstep w eq_refl) in Hrun, E1, E2, E3, E4.
  cbn [fst snd] in Hrun, E1, E2, E3, E4.
  rewrite (Hstep (Requests.logged w login) eq_refl) in Hrun, E2, E3, E4.
  cbn [fst snd] in Hrun, E2, E3, E4.
  rewrite (Hstep (Requests.logged (Requests.logged w login) login) eq_refl)
    in Hrun, E3, E4.
  cbn [fst snd] in Hrun, E3, E4.
  rewrite (Hstep (Requests.logged
                    (Requests.logged (Requests.logged w login) login) login)
             eq_refl) in Hrun, E4.
  cbn [fst snd] in Hrun, E4.
  rewrite (E1 _ eq_refl), (E2 _ eq_refl), (E3 _ eq_refl), (E4 _ eq_refl)
    in Hrun.
  rewrite Hrun. f_equal. f_equal.
  unfold Requests.logged. cbn [clock ticks remote sent world].
  f_equal. repeat rewrite <- app_assoc. reflexivity.
Qed.

Lemma listing_when_unreachable_witness :
  map url
    (sent (outside (snd (Parking.get_siigo_ids "user" "key" "MyApp"
                           (mkTerminal offline_world [])))))
  = ["https://api.siigo.com/auth"; "https://api.siigo.com/auth";
     "https://api.siigo.com/auth"; "https://api.siigo.com/auth"].
Proof.
  rewrite (listing_when_unreachable "user" "key" "MyApp"
             (mkTerminal offline_world []) "Connection refused"
             (fun _ => eq_refl)).
  reflexivity.
Defined.

Lemma checked_fresh (c : SiigoClient) (w : World) :
  ~ refresh_due c (current_time w) -> checked c w = Requests.tick w.
Proof.
  intros Hfresh. unfold checked. unfold refresh_due, token_cached in Hfresh.
  destruct (Py.truthy (_access_token c)).
  - destruct (_token_expiry c); [reflexivity|].
    exfalso. apply Hfresh. left. intros [_ H]. apply H. reflexivity.
  - exfalso. apply Hfresh. left. intros [H _]. discriminate.
Qed.

Lemma make_request_state_fresh (method endpoint : string)
    (data : option pyval) (params : option dict)
    (c : SiigoClient) (w : World) :
  ~ refresh_due c (current_time w) ->
  snd (Client._make_request method endpoint data params (mkSt c w))
  = mkSt c
      (Requests.logged (Requests.tick w)
         (dispatched method endpoint (Client.bearer_headers c) data params)).
Proof.
  intros Hfresh.
  rewrite make_request_state, get_auth_headers_fresh by exact Hfresh.
  rewrite (checked_fresh c w Hfresh). reflexivity.
Qed.

(** A token cached at the current reading stays good at every reading of a
    clock that remains within the window. *)
Lemma token_good_within_window (c : SiigoClient) (token : pyval)
    (w w' : World) :
  Py.truthy token = true ->
  clock_within_window w ->
  clock w' = clock w ->
  ~ refresh_due
      (with_token c token (Some (current_time w + Datetime.timedelta 24)))
      (current_time w').
Proof.
  intros Htok Hwin Hclock [Hn|[e [He Hle]]].
  - apply Hn. split; [exact Htok|discriminate].
  - cbn in He. injection He as <-.
    specialize (Hwin (ticks w')). unfold current_time in Hle at 2.
    rewrite Hclock in Hle. unfold Datetime.timedelta in *. lia.
Qed.

(** X19.  One login serves the whole listing.  When the authentication
    succeeds with a usable token and the clock stays within the window,
    [get_siigo_ids] makes exactly five calls: the authentication, then the
    GETs of the document types, the payment types of [FV], the taxes and the
    users with role [seller], all four under the token just obtained,
    whatever the service answers to them. *)
Theorem listing_logs_in_once (U K A : string) (t : Terminal) (d : dict)
    (Hok : auth_succeeds (Client.__init__ U K A) (outside t) d)
    (Htoken : Py.truthy (Py.get d "access_token") = true)
    (Hclock : clock_within_window (outside t)) :
  let c0 := Client.__init__ U K A in
  let c1 :=
    with_token c0 (Py.get d "access_token")
      (Some (current_time (outside t) + Datetime.timedelta 24)) in
  let headers := Client.bearer_headers c1 in
  fst (Parking.get_siigo_ids U K A t) = Ok tt
  /\ sent (outside (snd (Parking.get_siigo_ids U K A t)))
     = (sent (outside t)
        ++ [Client.auth_request c0;
            dispatched "GET" "/v1/document-types" headers None
              (Some [("type", PStr "FV")]);
            dispatched "GET" "/v1/payment-types" headers None
              (Some [("document_type", PStr "FV")]);
            dispatched "GET" "/v1/taxes" headers None None;
            dispatched "GET" "/v1/users" headers None
              (Some [("role", PStr "seller")])])%list.
Proof.
  intros c0 c1 headers.
  destruct (get_siigo_ids_run U K A t) as (o1 & o2 & o3 & o4 & Hrun & _).
  rewrite Hrun. split; [reflexivity|]. cbn [snd outside].
  set (w := outside t) in *. fold c0.
  assert (Hfirst : forall method endpoint data params,
            snd (Client._make_request method endpoint data params (mkSt c0 w))
            = mkSt c1
                (Requests.logged
                   (Requests.tick
                      (Requests.logged w (Client.auth_request c0)))
                   (dispatched method endpoint headers data params))).
  { intros method endpoint data params. rewrite make_request_state.
    rewrite get_auth_headers_stale by apply fresh_client_refresh_due.
    change (checked c0 w) with w.
    rewrite (authenticate_success c0 w d Hok). reflexivity. }
  assert (Hnext : forall w', clock w' = clock w ->
            forall method endpoint data params,
              snd (Client._make_request method endpoint data params
                     (mkSt c1 w'))
              = mkSt c1
                  (Requests.logged (Requests.tick w')
                     (dispatched method endpoint headers data params))).
  { intros w' Hw' method endpoint data params.
    apply make_request_state_fresh.
    apply token_good_within_window; assumption. }
  unfold four_lookups, Client.get_document_types, Client.get_payment_types,
    Client.get_taxes, Client.get_sellers.
  rewrite Hfirst.
  rewrite Hnext by reflexivity.
  rewrite Hnext by reflexivity.
  rewrite Hnext by reflexivity.
  cbn [world Requests.logged Requests.tick sent clock ticks remote].
  repeat rewrite <- app_assoc. reflexivity.
Qed.

Lemma listing_logs_in_once_witness :
  map url
    (sent (outside (snd (Parking.get_siigo_ids "user" "key" "MyApp"
                           (mkTerminal frozen_world [])))))
  = ["https://api.siigo.com/auth";
     "https://api.siigo.com/v1/document-types";
     "https://api.siigo.com/v1/payment-types";
     "https://api.siigo.com/v1/taxes";
     "https://api.siigo.com/v1/users"].
Proof.
  assert (Hok : auth_succeeds (Client.__init__ "user" "key" "MyApp")
                  (outside (mkTerminal frozen_world []))
                  [("access_token", PStr "abc")])
    by (eexists; repeat split; reflexivity).
  assert (Hclock : clock_within_window (outside (mkTerminal frozen_world [])))
    by (intros n; reflexivity).
  rewrite (proj2 (listing_logs_in_once "user" "key" "MyApp"
                    (mkTerminal frozen_world [])
                    [("access_token", PStr "abc")] Hok eq_refl Hclock)).
  reflexivity.
Defined.

(* --------------------------------------------------------------------- *)
(** *** What a block prints *)

Lemma for_each_id_name_good (good rest : list pyval) (c : Console) :
  Forall a_dict good ->
  Parking.for_each Parking.print_id_name (good ++ rest) c
  = Parking.for_each Parking.print_id_name rest
      (mkConsole (session c) (stdout c ++ map id_name_line good)).
Proof.
  intros Hgood. revert c.
  induction Hgood as [|x good Hx Hgood IH]; intros c.
  - cbn. rewrite app_nil_r. destruct c; reflexivity.
  - destruct x as [| | | | |d]; try destruct Hx.
    cbn [app Parking.for_each]. unfold bind at 1.
    unfold Parking.print_id_name, bind, py_get, ret, Parking.print.
    rewrite IH. cbn [session stdout map].
    rewrite <- app_assoc. reflexivity.
Qed.

(** X20.  A block on an array.  When the lookup returns an array, the block
    prints under its title one line per leading object, in order, with the
    [id] and [name] of the object ([None] for a missing key); it stops at
    the first element that is not an object, printing the error line
    there and nothing for what follows. *)
Theorem block_on_array (title : string) (fetch : M St pyval) (c : Console)
    (st : St) (good rest : list pyval)
    (Hfetched : fetch (session c) = (Ok (PList (good ++ rest)), st))
    (Hgood : Forall a_dict good) :
  (rest = [] ->
   Parking.listing title fetch Parking.print_id_name c
   = (Ok tt,
      mkConsole st
        (stdout c ++ Line (String "010" title) :: map id_name_line good)))
  /\ (forall bad more,
         rest = bad :: more ->
         not_a_dict bad ->
         exists msg : string,
           Parking.listing title fetch Parking.print_id_name c
           = (Ok tt,
              mkConsole st
                (stdout c
                 ++ Line (String "010" title)
                    :: map id_name_line good
                    ++ [ErrorLine (AttributeError msg)]))).
Proof.
  assert (Hrun :
    Parking.listing title fetch Parking.print_id_name c
    = match Parking.for_each Parking.print_id_name rest
              (mkConsole st
                 ((stdout c ++ [Line (String "010" title)])
                  ++ map id_name_line good))
      with
      | (Ok u, c') => (Ok u, c')
      | (Raise e, c') =>
          (Ok tt, mkConsole (session c') (stdout c' ++ [ErrorLine e]))
      end).
  { unfold Parking.listing, try_except, bind at 1 2 3, Parking.print.
    unfold Parking.on_client. cbn [session stdout]. rewrite Hfetched.
    unfold Parking.py_iter, ret at 1.
    rewrite (for_each_id_name_good good rest _ Hgood). reflexivity. }
  split.
  - intros ->. rewrite Hrun. cbn [Parking.for_each]. unfold ret.
    rewrite <- app_assoc. reflexivity.
  - intros bad more -> Hbad. rewrite Hrun.
    cbn [Parking.for_each]. unfold bind at 1.
    unfold Parking.print_id_name, bind, py_get, raise.
    destruct bad as [| | | | |d]; try (eexists; cbn [session stdout];
      rewrite <- !app_assoc; reflexivity).
    destruct Hbad.
Qed.

Lemma block_on_array_witness :
  exists msg : string,
    Parking.listing "Tipos de Documento:"
      (ret (PList ([PDict [("id", PInt 24446); ("name", PStr "Factura")];
                    PDict [("id", PInt 7)]]
                   ++ [PStr "oops";
                       PDict [("id", PInt 8); ("name", PStr "late")]])))
      Parking.print_id_name
      (mkConsole (mkSt sample_client sample_world) [])
    = (Ok tt,
       mkConsole (mkSt sample_client sample_world)
         [Line (String "010" "Tipos de Documento:");
          Line "  ID: 24446 - Factura";
          Line "  ID: 7 - None";
          ErrorLine (AttributeError msg)]).
Proof.
  assert (Hgood : Forall a_dict
                    [PDict [("id", PInt 24446); ("name", PStr "Factura")];
                     PDict [("id", PInt 7)]])
    by (repeat constructor).
  exact (proj2 (block_on_array "Tipos de Documento:" _
                  (mkConsole (mkSt sample_client sample_world) [])
                  (mkSt sample_client sample_world) _ _ eq_refl Hgood)
           (PStr "oops")
           [PDict [("id", PInt 8); ("name", PStr "late")]]
           eq_refl I).
Defined.

(** X21.  A block on an object.  When the lookup returns a JSON object
    instead of an array, the loop runs over its keys, which are strings
    without a [get]: a non-empty object makes the block print the error line
    and nothing else; the empty object (what the dispatcher returns for an
    empty body) makes it print the title alone. *)
Theorem block_on_object (title : string) (fetch : M St pyval)
    (print_item : pyval -> M Console unit) (c : Console)
    (st : St) (d : dict)
    (Hprinter : line_printer print_item)
    (Hfetched : fetch (session c) = (Ok (PDict d), st)) :
  (d = [] ->
   Parking.listing title fetch print_item c
   = (Ok tt, mkConsole st (stdout c ++ [Line (String "010" title)])))
  /\ (d <> [] ->
      exists msg : string,
        Parking.listing title fetch print_item c
        = (Ok tt,
           mkConsole st
             (stdout c ++ [Line (String "010" title);
                           ErrorLine (AttributeError msg)]))).
Proof.
  split.
  - intros ->. unfold Parking.listing, try_except, bind, Parking.print.
    unfold Parking.on_client. cbn [session stdout]. rewrite Hfetched.
    reflexivity.
  - intros Hd. destruct d as [|[k v] d]; [contradiction|].
    exists "object has no attribute 'get'".
    unfold Parking.listing, try_except, bind at 1 2 3, Parking.print.
    unfold Parking.on_client. cbn [session stdout]. rewrite Hfetched.
    unfold Parking.py_iter, ret at 1. cbn [map Parking.for_each fst].
    destruct Hprinter as [-> | [-> | ->]];
      cbn; rewrite <- app_assoc; reflexivity.
Qed.

Lemma block_on_object_witness :
  exists msg : string,
    Parking.listing "Vendedores:"
      (ret (PDict [("pagination", PDict []); ("results", PList [])]))
      Parking.print_seller
      (mkConsole (mkSt sample_client sample_world) [])
    = (Ok tt,
       mkConsole (mkSt sample_client sample_world)
         [Line (String "010" "Vendedores:");
          ErrorLine (AttributeError msg)]).
Proof.
  refine (proj2 (block_on_object "Vendedores:" _ Parking.print_seller
                   (mkConsole (mkSt sample_client sample_world) [])
                   (mkSt sample_client sample_world) _
                   (or_intror (or_intror eq_refl)) eq_refl) _).
  discriminate.
Defined.
